(** * load-watcher: the Prometheus metrics provider

    A shallow embedding of [pkg/metricsprovider/prometheus.go] and the
    properties of its query construction, response normalisation and
    per-entry conversion.

    Conventions of the embedding:
    - a Go panic (failed type assertion, index out of range, nil
      dereference) is the [Panic] outcome of the [result] monad;
    - a decoded JSON value held in an [interface{}] is an [iface]; a
      [map[string]interface{}] is the list of its entries in the order in
      which [range] visits them, so that a statement quantified over the
      list holds for every iteration order Go may pick;
    - [float64] is the IEEE 754 binary64 format of [SpecFloat];
    - [log.Printf] and [fmt.Printf] calls only write diagnostics and are
      left out: they do not influence any returned value. *)

From Stdlib Require Import ZArith NArith QArith Ascii String List Bool Lia.
From Stdlib Require Import Floats.SpecFloat.
From stdpp Require Import base option list strings gmap fin_maps.

Local Open Scope string_scope.
Local Set Warnings "-register-all".

(* ===================================================================== *)
(** ** Go runtime outcomes *)
(* ===================================================================== *)

Inductive panic : Type :=
  | NilDereference        (* invalid memory address or nil pointer dereference *)
  | InterfaceConversion   (* a single-valued type assertion x.(T) that fails *)
  | IndexOutOfRange.      (* s[i] with i >= len(s) *)

Inductive result (A : Type) : Type :=
  | Ok (a : A)
  | Panic (p : panic).
Arguments Ok {A} a.
Arguments Panic {A} p.

#[global] Instance result_bind : MBind result := fun A B k x =>
  match x with
  | Ok a => k a
  | Panic p => Panic p
  end.
#[global] Instance result_ret : MRet result := fun A a => Ok a.

Definition panics {A : Type} (x : result A) : Prop := exists p, x = Panic p.

(** [for _, x := range l { acc = f(acc, x) }] with a body that may panic. *)
Fixpoint range_fold {A B : Type} (f : A -> B -> result A) (acc : A) (l : list B)
  : result A :=
  match l with
  | [] => Ok acc
  | x :: l' => acc' ← f acc x; range_fold f acc' l'
  end.

(** Use of a pointer that may be nil: [p.f] panics when [p] is nil. *)
Definition deref {A : Type} (p : option A) : result A :=
  match p with
  | Some a => Ok a
  | None => Panic NilDereference
  end.

(* ===================================================================== *)
(** ** float64 and strconv.ParseFloat *)
(* ===================================================================== *)

Module strconv.

Definition float64 : Type := spec_float.
Definition prec : Z := 53.
Definition emax : Z := 1024.

Definition pos_zero : float64 := S754_zero false.

Definition is_inf (f : float64) : bool :=
  match f with S754_infinity _ => true | _ => false end.

(** The rational a finite float64 denotes. *)
Definition float64_value (f : float64) : option Q :=
  match f with
  | S754_zero _ => Some 0%Q
  | S754_finite s m e =>
      let v := (inject_Z (Zpos m) * (2 # 1) ^ e)%Q in
      Some (if s then Qopp v else v)
  | _ => None
  end.

(** Go's [==] on float64: IEEE comparison (-0 == +0, NaN != NaN). *)
Definition float64_eq (x y : float64) : bool := SFeqb x y.

(** [neg] * [num]/[den], rounded to the nearest float64, ties to even;
    a magnitude beyond the largest finite float64 gives an infinity. *)
Definition round_ratio (neg : bool) (num den : Z) : float64 :=
  let '(q, e, l) := SFdiv_core_binary prec emax num 0 den 0 in
  binary_round_aux prec emax neg q e l.

(** [neg] * [mantissa] * [base]^[exp] as a float64. *)
Definition scale (neg : bool) (mantissa : N) (base : Z) (exp : Z) : float64 :=
  match mantissa with
  | N0 => S754_zero neg
  | Npos p =>
      if (0 <=? exp)%Z
      then round_ratio neg (Zpos p * base ^ exp) 1
      else round_ratio neg (Zpos p) (base ^ (- exp))
  end.

Inductive NumError : Type := ErrSyntax | ErrRange.

Definition byte (c : ascii) : N := N_of_ascii c.
(** [lower(c)] is [c | ('x' - 'X')]. *)
Definition lower (c : ascii) : N := N.lor (byte c) 32.
Definition is_digit (c : ascii) : bool := ((48 <=? byte c) && (byte c <=? 57))%N.
Definition is_hex_letter (c : ascii) : bool := ((97 <=? lower c) && (lower c <=? 102))%N.
Definition is_char (c : ascii) (code : N) : bool := (byte c =? code)%N.

Definition ch_plus : N := 43.
Definition ch_minus : N := 45.
Definition ch_dot : N := 46.
Definition ch_underscore : N := 95.
Definition ch_0 : N := 48.

Fixpoint commonPrefixLenIgnoreCase (s prefix : string) : nat :=
  match s, prefix with
  | String c s', String p prefix' =>
      let c' := if ((65 <=? byte c) && (byte c <=? 90))%N
                then (byte c + 32)%N else byte c in
      if (c' =? byte p)%N then S (commonPrefixLenIgnoreCase s' prefix') else O
  | _, _ => O
  end.

Definition special_inf (sign : bool) (nsign : nat) (s : string)
  : option (float64 * nat) :=
  let n := commonPrefixLenIgnoreCase s "infinity" in
  let n := if (3 <? n)%nat && (n <? 8)%nat then 3%nat else n in
  if (n =? 3)%nat || (n =? 8)%nat
  then Some (S754_infinity sign, (nsign + n)%nat)
  else None.

(** [special]: the strings "inf", "infinity" (optionally signed) and "nan",
    case-insensitively; returns the value and the number of bytes used. *)
Definition special (s : string) : option (float64 * nat) :=
  match s with
  | EmptyString => None
  | String c s' =>
      if is_char c ch_plus || is_char c ch_minus
      then special_inf (is_char c ch_minus) 1 s'
      else if (lower c =? 105)%N (* 'i', 'I' *)
      then special_inf false 0 s
      else if (lower c =? 110)%N (* 'n', 'N' *)
      then if (commonPrefixLenIgnoreCase s "nan" =? 3)%nat
           then Some (S754_nan, 3%nat) else None
      else None
  end.

(** The state of the digit loop of [readFloat].  The mantissa is kept in
    full (Go keeps 19 digits and re-reads the text in its slow path when it
    had to drop some; the value it finally rounds is the one kept here). *)
Record digits : Type := mkDigits {
  mantissa : N;
  nd : Z;
  dp : Z;
  sawdot : bool;
  sawdigits : bool;
  underscores : bool
}.

Definition digits0 : digits := mkDigits 0 0 0 false false false.

Fixpoint readDigits (hex : bool) (st : digits) (s : string) : digits * string :=
  match s with
  | EmptyString => (st, s)
  | String c s' =>
      if is_char c ch_underscore then
        readDigits hex
          (mkDigits (mantissa st) (nd st) (dp st) (sawdot st) (sawdigits st) true) s'
      else if is_char c ch_dot then
        if sawdot st then (st, s)
        else readDigits hex
          (mkDigits (mantissa st) (nd st) (nd st) true (sawdigits st) (underscores st)) s'
      else if is_digit c then
        if is_char c ch_0 && (nd st =? 0)%Z then
          readDigits hex
            (mkDigits (mantissa st) (nd st) (dp st - 1) (sawdot st) true (underscores st)) s'
        else
          readDigits hex
            (mkDigits (mantissa st * (if hex then 16 else 10) + (byte c - 48))
                      (nd st + 1) (dp st) (sawdot st) true (underscores st)) s'
      else if hex && is_hex_letter c then
        readDigits hex
          (mkDigits (mantissa st * 16 + (lower c - 97 + 10))
                    (nd st + 1) (dp st) (sawdot st) true (underscores st)) s'
      else (st, s)
  end.

(** The digits of an exponent; [e] stops growing once it reaches 10000. *)
Fixpoint readExpDigits (e : Z) (us : bool) (s : string) : Z * bool * string :=
  match s with
  | EmptyString => (e, us, s)
  | String c s' =>
      if is_char c ch_underscore then readExpDigits e true s'
      else if is_digit c then
        readExpDigits (if (e <? 10000)%Z then e * 10 + Z.of_N (byte c - 48) else e) us s'
      else (e, us, s)
  end.

(** [underscoreOK]: underscores only between digits, or between a base
    prefix and a digit.  [saw] is the kind of the previous character. *)
Inductive saw_kind : Type := SawStart | SawDigit | SawUnderscore | SawOther.

Fixpoint underscoreLoop (hex : bool) (saw : saw_kind) (s : string) : bool :=
  match s with
  | EmptyString => match saw with SawUnderscore => false | _ => true end
  | String c s' =>
      if is_digit c || (hex && is_hex_letter c) then underscoreLoop hex SawDigit s'
      else if is_char c ch_underscore then
        match saw with
        | SawDigit => underscoreLoop hex SawUnderscore s'
        | _ => false
        end
      else
        match saw with
        | SawUnderscore => false
        | _ => underscoreLoop hex SawOther s'
        end
  end.

Definition underscoreOK (s : string) : bool :=
  let s := match s with
           | String c s' => if is_char c ch_minus || is_char c ch_plus then s' else s
           | _ => s
           end in
  match s with
  | String c0 (String c1 s') =>
      if is_char c0 ch_0 && ((lower c1 =? 98) || (lower c1 =? 111) || (lower c1 =? 120))%N
      then underscoreLoop (lower c1 =? 120)%N SawDigit s'
      else underscoreLoop false SawStart s
  | _ => underscoreLoop false SawStart s
  end.

(** What [readFloat] hands back when it accepts a prefix of the text. *)
Record scanned : Type := mkScanned {
  sc_neg : bool;
  sc_hex : bool;
  sc_mantissa : N;
  sc_exp : Z;          (* power of 10, or of 2 when [sc_hex] *)
  sc_rest : string     (* the text after the accepted prefix *)
}.

Definition readFloat (s : string) : option scanned :=
  match s with
  | EmptyString => None
  | String c s1 =>
      (* optional sign *)
      let neg := is_char c ch_minus in
      let s1 := if is_char c ch_plus || is_char c ch_minus then s1 else s in
      (* base prefix: "0x" followed by at least one more byte *)
      let '(hex, s2) :=
        match s1 with
        | String c0 (String c1 (String c2 r)) =>
            if is_char c0 ch_0 && (lower c1 =? 120)%N
            then (true, String c2 r) else (false, s1)
        | _ => (false, s1)
        end in
      let '(st, s3) := readDigits hex digits0 s2 in
      if negb (sawdigits st) then None else
      let dp0 := if sawdot st then dp st else nd st in
      let dp1 := if hex then (dp0 * 4)%Z else dp0 in
      let ndMant := if hex then (nd st * 4)%Z else nd st in
      let expChar : N := (if hex then 112 (* 'p' *) else 101 (* 'e' *))%N in
      let finish (dp2 : Z) (us : bool) (rest : string) : option scanned :=
        let exp := if (mantissa st =? 0)%N then 0%Z else (dp2 - ndMant)%Z in
        let consumed := (String.length s - String.length rest)%nat in
        if us && negb (underscoreOK (substring 0 consumed s)) then None
        else Some (mkScanned neg hex (mantissa st) exp rest) in
      match s3 with
      | String ce s4 =>
          if (lower ce =? expChar)%N then
            match s4 with
            | EmptyString => None
            | String cs s5 =>
                let esign := if is_char cs ch_minus then (-1)%Z else 1%Z in
                let s6 := if is_char cs ch_plus || is_char cs ch_minus then s5 else s4 in
                match s6 with
                | EmptyString => None
                | String cd _ =>
                    if negb (is_digit cd) then None else
                    let '(e, us, rest) := readExpDigits 0 (underscores st) s6 in
                    finish (dp1 + e * esign)%Z us rest
                end
            end
          else if hex then None
          else finish dp1 (underscores st) s3
      | EmptyString =>
          if hex then None else finish dp1 (underscores st) s3
      end
  end.

(** [strconv.ParseFloat(s, 64)].  A text that is not a number gives
    [(0, ErrSyntax)]; a number too large for float64 gives
    [(±Inf, ErrRange)]; otherwise the nearest float64 and no error. *)
Definition ParseFloat (s : string) : float64 * option NumError :=
  match special s with
  | Some (f, n) =>
      if (n =? String.length s)%nat then (f, None) else (pos_zero, Some ErrSyntax)
  | None =>
      match readFloat s with
      | None => (pos_zero, Some ErrSyntax)
      | Some r =>
          match sc_rest r with
          | EmptyString =>
              let f := scale (sc_neg r) (sc_mantissa r)
                             (if sc_hex r then 2 else 10)%Z (sc_exp r) in
              (f, if is_inf f then Some ErrRange else None)
          | String _ _ => (pos_zero, Some ErrSyntax)
          end
      end
  end.

End strconv.

Import strconv.

(* ===================================================================== *)
(** ** Decoded JSON, fmt and net/http *)
(* ===================================================================== *)

(** What [encoding/json] stores in an [interface{}].  [IMap] lists the
    entries of a [map[string]interface{}] in iteration order. *)
Inductive iface : Type :=
  | INil
  | IBool (b : bool)
  | INumber (f : float64)
  | IString (s : string)
  | ISlice (l : list iface)
  | IMap (m : list (string * iface)).

(** [m[k]] on a [map[string]interface{}]: the zero value [nil] when absent. *)
Fixpoint map_index (m : list (string * iface)) (k : string) : iface :=
  match m with
  | [] => INil
  | (k', v) :: m' => if String.eqb k' k then v else map_index m' k
  end.

(** [v.(string)], [v.([]interface{})], [v.(map[string]interface{})]. *)
Definition assert_string (v : iface) : result string :=
  match v with IString s => Ok s | _ => Panic InterfaceConversion end.
Definition assert_slice (v : iface) : result (list iface) :=
  match v with ISlice l => Ok l | _ => Panic InterfaceConversion end.
Definition assert_map (v : iface) : result (list (string * iface)) :=
  match v with IMap m => Ok m | _ => Panic InterfaceConversion end.

(** [l[i]] on a slice. *)
Definition slice_index (l : list iface) (i : nat) : result iface :=
  match l !! i with
  | Some x => Ok x
  | None => Panic IndexOutOfRange
  end.

Module fmt.

Fixpoint extra (args : list string) : string :=
  match args with
  | [] => ""
  | [a] => "string=" ++ a
  | a :: args' => "string=" ++ a ++ ", " ++ extra args'
  end.

(** [fmt.Sprintf] for string operands and the [%s] verb, the only verb of
    the formats of this package. *)
Fixpoint Sprintf (format : string) (args : list string) : string :=
  match format with
  | EmptyString =>
      match args with
      | [] => ""
      | _ => "%!(EXTRA " ++ extra args ++ ")"
      end
  | String "%" (String "s" rest) =>
      match args with
      | a :: args' => a ++ Sprintf rest args'
      | [] => "%!s(MISSING)" ++ Sprintf rest []
      end
  | String c rest => String c (Sprintf rest args)
  end.

End fmt.

Module http.

Definition MethodGet : string := "GET".
Definition StatusOK : Z := 200.

Record Request : Type := mkRequest {
  Method : string;
  URL : string;
  Header : list (string * string)
}.

(** [h.Set(key, value)]: replaces whatever [key] held. *)
Definition Header_Set (key value : string) (h : list (string * string))
  : list (string * string) :=
  (key, value) :: filter (fun kv => negb (String.eqb (fst kv) key)) h.

Definition set_header (key value : string) (r : Request) : Request :=
  mkRequest (Method r) (URL r) (Header_Set key value (Header r)).

(** A response as this package consumes it: the status code, and the body
    as [json.NewDecoder(resp.Body).Decode(&res)] leaves it in [res] (a
    decode error is only logged, [res] keeps what had been decoded). *)
Record Response : Type := mkResponse {
  StatusCode : Z;
  Body : gmap string (gmap string iface)
}.

(** [Client.Do]: [None] is the [(nil, err)] of a transport failure. *)
Record Client : Type := mkClient {
  Do : Request -> option Response
}.

End http.

(* ===================================================================== *)
(** ** package watcher *)
(* ===================================================================== *)

Module watcher.

(** Modelled from the spec: the resource kind of [watcher.Metric], whose
    declaration ([watcher.CPU], [watcher.Memory]) is outside this package:
    "type: resource-kind enum (CPU | Memory)". *)
Inductive ResourceType : Type := CPU | Memory.

(** Modelled from the spec: [watcher.Metric], declared outside this
    package: "{ name, type, rollup, value: floating-point number }". *)
Record Metric : Type := mkMetric {
  Name : string;
  Type_ : ResourceType;
  Rollup : string;
  Value : float64
}.

(** Modelled from the spec: [watcher.Window], declared outside this
    package; this package reads its [Duration] only. *)
Record Window : Type := mkWindow {
  Duration : string
}.

End watcher.

(* ===================================================================== *)
(** ** package metricsprovider: prometheus.go *)
(* ===================================================================== *)

Definition promHostKey : string := "PROM_HOST".
Definition promTokenKey : string := "PROM_TOKEN".
Definition promQuery : string := "/api/v1/query?query=".
Definition prom_std_method : string := "stddev_over_time".
Definition prom_avg_method : string := "avg_over_time".
Definition prom_cpu_metric : string := "instance:node_cpu:ratio".
Definition prom_mem_metric : string := "instance:node_memory_utilisation:ratio".

(** The package variables [init] sets from the process environment. *)
Record Globals : Type := mkGlobals {
  promHost : string;
  promToken : string;
  promTokenPresent : bool
}.

Definition init (LookupEnv : string -> option string) : Globals :=
  mkGlobals
    (match LookupEnv promHostKey with
     | Some h => h
     | None => "prometheus-k8s:9090"
     end)
    (default "" (LookupEnv promTokenKey))
    (bool_decide (is_Some (LookupEnv promTokenKey))).

Record promClient : Type := mkPromClient {
  client : http.Client
}.

(** [map[string][]watcher.Metric] *)
Abbreviation HostMetrics := (gmap string (list watcher.Metric)).

(** [hostMetrics[h]]: the nil slice when [h] is absent. *)
Definition metrics_of (hostMetrics : HostMetrics) (h : string) : list watcher.Metric :=
  default [] (hostMetrics !! h).

(** [hostMetrics[h] = append(hostMetrics[h], m)] *)
Definition append_metric (hostMetrics : HostMetrics) (h : string) (m : watcher.Metric)
  : HostMetrics :=
  <[h := (metrics_of hostMetrics h ++ [m])%list]> hostMetrics.

Definition set_Value (m : watcher.Metric) (f : float64) : watcher.Metric :=
  watcher.mkMetric (watcher.Name m) (watcher.Type_ m) (watcher.Rollup m) f.

(** The body of the [range promdata] loop of [promdata2metric]. *)
Definition promdata2metric_step (acc : watcher.Metric * string) (kv : string * iface)
  : result (watcher.Metric * string) :=
  let '(curMetric, curHost) := acc in
  let '(k, v) := kv in
  if String.eqb k "metric" then
    match v with
    | IMap labels =>
        curHost' ← assert_string (map_index labels "instance");
        Ok (curMetric, curHost')
    | _ => Ok (curMetric, curHost)
    end
  else
    l ← assert_slice v;
    x ← slice_index l 1;
    s ← assert_string x;
    Ok (set_Value curMetric (fst (ParseFloat s)), curHost).

(** Convert Json object from Prometheus query to watcher.Metric object. *)
Definition promdata2metric (promdata : list (string * iface))
    (metric method rollup : string) : result (watcher.Metric * string) :=
  let curMetric :=
    watcher.mkMetric method
      (if String.eqb metric prom_cpu_metric then watcher.CPU else watcher.Memory)
      rollup pos_zero in
  range_fold promdata2metric_step (curMetric, "") promdata.

Section Provider.

(** Whether [net/url] parses a string; [http.NewRequest] with a valid
    method fails exactly when it does not. *)
Variable url_Parse_ok : string -> bool.
Variable G : Globals.

Definition http_NewRequest (method url : string) : option http.Request :=
  if url_Parse_ok url then Some (http.mkRequest method url []) else None.

(** Lines 94-95: the query URL. *)
Definition promURLStr (metric method rollup : string) : string :=
  fmt.Sprintf "http://%s%s%s(%s[%s])" [promHost G; promQuery; method; metric; rollup].

(** Lines 96-104: build the request, send it.  Both errors are dropped
    ([req, _ :=], [resp, _ :=]); [req.Header.Set] and [resp.StatusCode]
    then dereference what may be nil. *)
Definition query (s : promClient) (metric method rollup : string)
  : result http.Response :=
  req ← deref (http_NewRequest http.MethodGet (promURLStr metric method rollup));
  let req := http.set_header "Content-Type" "application/json" req in
  let req :=
    if promTokenPresent G
    then http.set_header "Authorization" (fmt.Sprintf "Bearer %s" [promToken G]) req
    else req in
  deref (http.Do (client s) req).

(** The body of the loop over the elements of an array result. *)
Definition add_result (metric method rollup : string)
    (hostMetrics : HostMetrics) (prom_metric : iface) : result HostMetrics :=
  promdata ← assert_map prom_metric;
  '(curMetric, curHost) ← promdata2metric promdata metric method rollup;
  Ok (append_metric hostMetrics curHost curMetric).

(** Fetch all host metrics for a particular method and resource type. *)
Definition updateAllHostMetrics (s : promClient) (hostMetrics : HostMetrics)
    (metric method rollup : string) : result HostMetrics :=
  resp ← query s metric method rollup;
  if negb (http.StatusCode resp =? http.StatusOK)%Z then Ok hostMetrics
  else
    let res := http.Body resp in
    match res !! "data" ≫= (fun data => data !! "result") with
    | Some promdata =>
        match promdata with
        | ISlice l => range_fold (add_result metric method rollup) hostMetrics l
        | IMap _ => add_result metric method rollup hostMetrics promdata
        | _ => Ok hostMetrics
        end
    | None => Ok hostMetrics
    end.

(** Fetch all host metrics for all methods and resource types.  The
    second component is the [error] result. *)
Definition FetchAllHostsMetrics (s : promClient) (window : option watcher.Window)
  : result (HostMetrics * option string) :=
  hostMetrics ←
    range_fold (fun hostMetrics method =>
      range_fold (fun hostMetrics metric =>
        w ← deref window;
        updateAllHostMetrics s hostMetrics metric method (watcher.Duration w))
        hostMetrics [prom_cpu_metric; prom_mem_metric])
      ∅ [prom_avg_method; prom_std_method];
  Ok (hostMetrics, None).

End Provider.

(* ===================================================================== *)
(** ** Shapes of raw result entries *)
(* ===================================================================== *)

(** The string at index 1 of a value array, when [v] is an array of at
    least two elements with a string there. *)
Definition value_string (v : iface) : option string :=
  match v with
  | ISlice (_ :: IString s :: _) => Some s
  | _ => None
  end.

(** A raw result object as the backend documents it: a [metric]
    sub-object whose [instance] names the host, and a [value] key holding
    [[timestamp, stringified-number]]; Go may visit the two keys in either
    order. *)
Definition raw_result_object (promdata : list (string * iface))
    (host value : string) : Prop :=
  exists labels timestamp,
    map_index labels "instance" = IString host /\
    promdata ≡ₚ [("metric", IMap labels);
                 ("value", ISlice [timestamp; IString value])].

(** The metric a query for [metric], [method], [rollup] yields from the
    value text [value]. *)
Definition metric_for (metric method rollup value : string) : watcher.Metric :=
  watcher.mkMetric method
    (if String.eqb metric prom_cpu_metric then watcher.CPU else watcher.Memory)
    rollup (fst (ParseFloat value)).

(** Number of metrics held by a mapping, over all hosts. *)
Definition total_metrics (hostMetrics : HostMetrics) : nat :=
  map_fold (fun _ l n => (length l + n)%nat) 0%nat hostMetrics.

(** The four (method, metric) combinations, in the order of the loops. *)
Definition combinations : list (string * string) :=
  [(prom_avg_method, prom_cpu_metric); (prom_avg_method, prom_mem_metric);
   (prom_std_method, prom_cpu_metric); (prom_std_method, prom_mem_metric)].

(** The float64 nearest to 42.5, which is 42.5 itself: 85 * 2^46 * 2^-47. *)
Definition float_42_5 : float64 := S754_finite false (85 * 2 ^ 46) (-47).

(** The mapping after appending, in order, one metric per (host, value). *)
Definition append_all (metric method rollup : string)
    (hostMetrics : HostMetrics) (hvs : list (string * string)) : HostMetrics :=
  foldl (fun hm hv => append_metric hm hv.1 (metric_for metric method rollup hv.2))
        hostMetrics hvs.

(** The loop nest of [FetchAllHostsMetrics] over a list of (method,
    metric) combinations. *)
Definition run_combinations (url_Parse_ok : string -> bool) (G : Globals)
    (s : promClient) (rollup : string) (cs : list (string * string))
    (hostMetrics : HostMetrics) : result HostMetrics :=
  range_fold (fun hm c => updateAllHostMetrics url_Parse_ok G s hm c.2 c.1 rollup)
             hostMetrics cs.

(** Percent-encoding of a query component as [net/url]'s [QueryEscape]
    does it: letters, digits and [-_.~] stay, a space becomes [+], every
    other byte becomes [%XX].  This is the "urlencoded" of the wire
    contract in the specification; the source does not call it. *)
Definition hex_upper (n : N) : ascii :=
  match String.get (N.to_nat n) "0123456789ABCDEF" with
  | Some c => c
  | None => "0"%char
  end.

Definition shouldEscape (c : ascii) : bool :=
  let n := byte c in
  negb (((97 <=? n) && (n <=? 122)) || ((65 <=? n) && (n <=? 90))
        || ((48 <=? n) && (n <=? 57))
        || (n =? 45) || (n =? 95) || (n =? 46) || (n =? 126))%N.

Fixpoint QueryEscape (s : string) : string :=
  match s with
  | EmptyString => EmptyString
  | String c s' =>
      if (byte c =? 32)%N then String "+" (QueryEscape s')
      else if shouldEscape c then
        String "%" (String (hex_upper (byte c / 16))
                   (String (hex_upper (byte c mod 16)) (QueryEscape s')))
      else String c (QueryEscape s')
  end.

(** The URL as C7 words it: the query expression URL-encoded. *)
Definition url_encoded_query_URL (G : Globals) (metric method rollup : string)
  : string :=
  "http://" ++ promHost G ++ "/api/v1/query?query="
  ++ QueryEscape (method ++ "(" ++ metric ++ "[" ++ rollup ++ "])").

(** *** Concrete settings used to exercise the statements *)

Definition default_globals : Globals := init (fun _ => None).
Definition any_url : string -> bool := fun _ => true.
Definition window_5m : option watcher.Window := Some (watcher.mkWindow "5m").

(** A client that answers by URL. *)
Definition url_client (answer : string -> option http.Response) : promClient :=
  mkPromClient (http.mkClient (fun req => answer (http.URL req))).

Definition envelope (result : iface) : gmap string (gmap string iface) :=
  {[ "data" := {[ "result" := result ]} ]}.

Definition raw_entry (host value : string) : list (string * iface) :=
  [("metric", IMap [("instance", IString host)]);
   ("value", ISlice [INumber pos_zero; IString value])].

Definition avg_cpu_url : string :=
  "http://prometheus-k8s:9090/api/v1/query?query=avg_over_time(instance:node_cpu:ratio[5m])".
Definition std_mem_url : string :=
  "http://prometheus-k8s:9090/api/v1/query?query=stddev_over_time(instance:node_memory_utilisation:ratio[5m])".

Definition two_nodes : http.Response :=
  http.mkResponse 200
    (envelope (ISlice [IMap (raw_entry "node-1" "0.5"); IMap (raw_entry "node-2" "0.7")])).
Definition one_node : http.Response :=
  http.mkResponse 200 (envelope (IMap (raw_entry "node-1" "0.73"))).
Definition unavailable : http.Response :=
  http.mkResponse 503 ∅.

(** avg/cpu is answered 503, the other three get [one_node]. *)
Definition avg_cpu_unavailable : promClient :=
  url_client (fun url => if String.eqb url avg_cpu_url
                         then Some unavailable else Some one_node).

(** The fourth request (stddev/mem) fails in transport. *)
Definition last_request_fails : promClient :=
  url_client (fun url => if String.eqb url std_mem_url
                         then None else Some one_node).

(** *** What the conversion loop does with one entry *)

(** Whether the loop body of [promdata2metric] gets through an entry:
    under "metric" anything but an object whose [instance] is not a
    string; under any other key an array with a string at index 1. *)
Definition entry_ok (kv : string * iface) : bool :=
  if String.eqb kv.1 "metric" then
    match kv.2 with
    | IMap labels =>
        match map_index labels "instance" with
        | IString _ => true
        | _ => false
        end
    | _ => true
    end
  else
    match value_string kv.2 with
    | Some _ => true
    | None => false
    end.

(** The host an entry assigns: the [instance] of an object under "metric". *)
Definition entry_host (kv : string * iface) : option string :=
  if String.eqb kv.1 "metric" then
    match kv.2 with
    | IMap labels =>
        match map_index labels "instance" with
        | IString h => Some h
        | _ => None
        end
    | _ => None
    end
  else None.

(** The value text an entry assigns: index 1 of the array under a key
    other than "metric". *)
Definition entry_value (kv : string * iface) : option string :=
  if String.eqb kv.1 "metric" then None else value_string kv.2.

(** A metric carrying the labels of the query for [metric], [method],
    [rollup]. *)
Definition labelled (metric method rollup : string) (m : watcher.Metric) : Prop :=
  watcher.Name m = method /\
  watcher.Rollup m = rollup /\
  watcher.Type_ m
  = if String.eqb metric prom_cpu_metric then watcher.CPU else watcher.Memory.

(** [hm'] holds every host of [hm], and each host's sequence in [hm'] is
    its sequence in [hm] followed by metrics that satisfy [P]. *)
Definition extends_with (P : watcher.Metric -> Prop) (hm hm' : HostMetrics) : Prop :=
  (forall h, is_Some (hm !! h) -> is_Some (hm' !! h)) /\
  forall h, exists added,
    metrics_of hm' h = (metrics_of hm h ++ added)%list /\ Forall P added.

(** [h.Get(key)] on a header: the first value under [key], or "". *)
Fixpoint Header_Get (key : string) (h : list (string * string)) : string :=
  match h with
  | [] => ""
  | (k, v) :: h' => if String.eqb k key then v else Header_Get key h'
  end.

(** A combination whose request is answered 200 with well-formed results
    for the (host, value) pairs [hvs]: an array of raw result objects, or
    a single one. *)
Definition well_answered (url_Parse_ok : string -> bool) (G : Globals)
    (s : promClient) (rollup : string) (c : string * string)
    (hvs : list (string * string)) : Prop :=
  exists resp,
    query url_Parse_ok G s c.2 c.1 rollup = Ok resp /\
    http.StatusCode resp = http.StatusOK /\
    ((exists es,
        http.Body resp !! "data" ≫= (fun data => data !! "result")
          = Some (ISlice (IMap <$> es)) /\
        Forall2 (fun e hv => raw_result_object e hv.1 hv.2) es hvs) \/
     (exists e hv,
        http.Body resp !! "data" ≫= (fun data => data !! "result")
          = Some (IMap e) /\
        raw_result_object e hv.1 hv.2 /\ hvs = [hv])).

(** The mapping after the answers of several combinations, in order. *)
Definition append_answers (rollup : string)
    (hostMetrics : HostMetrics)
    (answers : list ((string * string) * list (string * string))) : HostMetrics :=
  foldl (fun hm ca => append_all ca.1.2 ca.1.1 rollup hm ca.2) hostMetrics answers.

(** A client that answers every request with [resp]. *)
Definition constant_client (resp : option http.Response) : promClient :=
  url_client (fun _ => resp).

Definition std_cpu_url : string :=
  "http://prometheus-k8s:9090/api/v1/query?query=stddev_over_time(instance:node_cpu:ratio[5m])".

(** stddev/cpu is answered 503; stddev/memory gets [two_nodes], the two
    avg combinations get [one_node]. *)
Definition std_cpu_unavailable : promClient :=
  url_client (fun url => if String.eqb url std_cpu_url then Some unavailable
                         else if String.eqb url std_mem_url then Some two_nodes
                         else Some one_node).

(** What the answers [hvs] of one combination add to the sequence of host
    [h], in order. *)
Definition contribution (rollup h : string)
    (ca : (string * string) * list (string * string)) : list watcher.Metric :=
  metric_for ca.1.2 ca.1.1 rollup <$> (filter (fun hv => hv.1 = h) ca.2).*2.

(* ===================================================================== *)
(** ** Loops and panics *)
(* ===================================================================== *)

Section RangeFold.
Context {A B : Type} (f : A -> B -> result A).

Lemma range_fold_app (l1 l2 : list B) (acc : A) :
  range_fold f acc (l1 ++ l2)%list
  = (acc' ← range_fold f acc l1; range_fold f acc' l2).
Proof.
  revert acc. induction l1 as [|x l1 IH]; intros acc; simpl; [reflexivity|].
  destruct (f acc x) as [a|p]; simpl; [apply IH | reflexivity].
Qed.

(** An element on which the body always panics makes the loop panic:
    either the loop reaches it, or it has panicked before. *)
Lemma range_fold_panics (l : list B) (x : B) (acc : A) :
  x ∈ l -> (forall a, panics (f a x)) -> panics (range_fold f acc l).
Proof.
  intros Hin Hx. revert acc.
  induction Hin as [x l|x y l _ IH]; intros acc; simpl.
  - destruct (Hx acc) as [p ->]. by exists p.
  - destruct (f acc y) as [a|p]; simpl; [apply (IH Hx) | by exists p].
Qed.

Lemma range_fold_snoc (l : list B) (x : B) (acc acc' : A) :
  range_fold f acc l = Ok acc' ->
  range_fold f acc (l ++ [x])%list = f acc' x.
Proof.
  intros H. rewrite range_fold_app, H. simpl.
  by destruct (f acc' x).
Qed.

End RangeFold.

Lemma not_panics_Ok {A : Type} (a : A) : ~ panics (Ok a).
Proof. by intros [p Hp]. Qed.

(* ===================================================================== *)
(** ** Per-entry conversion *)
(* ===================================================================== *)

Lemma step_value_key (m : watcher.Metric) (h k : string) (v : iface) :
  k <> "metric" ->
  promdata2metric_step (m, h) (k, v)
  = match value_string v with
    | Some s => Ok (set_Value m (fst (ParseFloat s)), h)
    | None =>
        match v with
        | ISlice l =>
            match l with
            | _ :: _ :: _ => Panic InterfaceConversion
            | _ => Panic IndexOutOfRange
            end
        | _ => Panic InterfaceConversion
        end
    end.
Proof.
  intros Hk. unfold promdata2metric_step.
  destruct (String.eqb_spec k "metric") as [->|_]; [done|].
  destruct v as [| | | |l|]; try reflexivity.
  destruct l as [|a [|b l]]; try reflexivity.
  by destruct b.
Qed.

Lemma step_bad_value_panics (acc : watcher.Metric * string) (k : string) (v : iface) :
  k <> "metric" -> value_string v = None ->
  panics (promdata2metric_step acc (k, v)).
Proof.
  intros Hk Hv. destruct acc as [m h].
  rewrite step_value_key, Hv by done.
  destruct v as [| | | |[|a [|b l]]|]; eexists; reflexivity.
Qed.

Lemma step_metric_key (m : watcher.Metric) (h : string) (labels : list (string * iface)) :
  promdata2metric_step (m, h) ("metric", IMap labels)
  = (h' ← assert_string (map_index labels "instance"); Ok (m, h')).
Proof. reflexivity. Qed.

(** Conversion of a well-formed entry, whichever key is visited first. *)
Lemma promdata2metric_raw_result_object
    (promdata : list (string * iface)) (host value metric method rollup : string) :
  raw_result_object promdata host value ->
  promdata2metric promdata metric method rollup
  = Ok (metric_for metric method rollup value, host).
Proof.
  intros (labels & ts & Hinst & Hperm).
  symmetry in Hperm. apply Permutation_length_2_inv in Hperm.
  unfold promdata2metric.
  destruct Hperm as [-> | ->]; simpl; rewrite Hinst; reflexivity.
Qed.

(** A [metric] sub-object whose [instance] is not a string stops the
    conversion, in whatever order the keys are visited. *)
Lemma promdata2metric_bad_instance_panics
    (promdata : list (string * iface)) (labels : list (string * iface))
    (metric method rollup : string) :
  ("metric", IMap labels) ∈ promdata ->
  (forall s, map_index labels "instance" <> IString s) ->
  panics (promdata2metric promdata metric method rollup).
Proof.
  intros Hin Hbad. unfold promdata2metric.
  apply range_fold_panics with (x := ("metric", IMap labels)); [done|].
  intros [m h]. rewrite step_metric_key.
  destruct (map_index labels "instance") as [| | |s| |] eqn:E;
    try (eexists; reflexivity).
  by destruct (Hbad s).
Qed.

(** C1 (as the code behaves): a [metric] sub-object without [instance],
    or with an [instance] that is not a string, does not give the empty
    host key: the unchecked [.(string)] assertion of line 163 panics, for
    both orders in which the two keys can be visited. *)
Theorem promdata2metric_malformed_instance_panics :
  let value := ("value", ISlice [INumber pos_zero; IString "1"]) in
  let missing := ("metric", IMap []) in
  let not_string := ("metric", IMap [("instance", INumber pos_zero)]) in
  promdata2metric [missing; value] prom_cpu_metric prom_avg_method "5m"
    = Panic InterfaceConversion /\
  promdata2metric [value; missing] prom_cpu_metric prom_avg_method "5m"
    = Panic InterfaceConversion /\
  promdata2metric [not_string; value] prom_cpu_metric prom_avg_method "5m"
    = Panic InterfaceConversion /\
  promdata2metric [value; not_string] prom_cpu_metric prom_avg_method "5m"
    = Panic InterfaceConversion.
Proof. repeat split; reflexivity. Qed.

Lemma float_42_5_exact :
  exists q, float64_value float_42_5 = Some q /\ Qeq q (85 # 2).
Proof. eexists; split; [reflexivity|]. vm_compute. reflexivity. Qed.

(** C5: a raw result entry whose value array is [[<anything>, "42.5"]]
    converts, without panic, to a metric whose Value is the float64 42.5
    exactly (the text at index 1 parsed as a 64-bit float). *)
Theorem promdata2metric_value_42_5
    (promdata : list (string * iface)) (host metric method rollup : string) :
  raw_result_object promdata host "42.5" ->
  exists m,
    promdata2metric promdata metric method rollup = Ok (m, host) /\
    watcher.Value m = float_42_5 /\
    watcher.Value m = fst (ParseFloat "42.5") /\
    snd (ParseFloat "42.5") = None /\
    exists q, float64_value (watcher.Value m) = Some q /\ Qeq q (85 # 2).
Proof.
  intros H. eexists. split.
  - by apply promdata2metric_raw_result_object.
  - repeat split; try reflexivity. apply float_42_5_exact.
Qed.

Lemma promdata2metric_value_42_5_witness :
  exists m,
    promdata2metric
      [("metric", IMap [("instance", IString "node-1")]);
       ("value", ISlice [INumber pos_zero; IString "42.5"])]
      prom_cpu_metric prom_avg_method "5m" = Ok (m, "node-1") /\
    watcher.Value m = float_42_5 /\
    watcher.Value m = fst (ParseFloat "42.5") /\
    snd (ParseFloat "42.5") = None /\
    exists q, float64_value (watcher.Value m) = Some q /\ Qeq q (85 # 2).
Proof.
  apply (promdata2metric_value_42_5 _ "node-1").
  exists [("instance", IString "node-1")], (INumber pos_zero).
  split; reflexivity.
Defined.

(** What [ParseFloat] returns next to an error: zero for a syntax error,
    an infinity for a range error. *)
Lemma ParseFloat_error_value (s : string) :
  match snd (ParseFloat s) with
  | Some ErrSyntax => fst (ParseFloat s) = pos_zero
  | Some ErrRange => exists sign, fst (ParseFloat s) = S754_infinity sign
  | None => True
  end.
Proof.
  unfold ParseFloat.
  destruct (special s) as [[f n]|].
  - by destruct (n =? String.length s)%nat.
  - destruct (readFloat s) as [r|]; [|reflexivity].
    destruct (sc_rest r); [|reflexivity]. simpl.
    destruct (scale _ _ _ _) as [sg|sg| |sg m e]; simpl; eauto.
Qed.

(** C8 as stated fails: the text "1e999" is a well-formed number that does
    not fit a float64; [ParseFloat] reports [ErrRange] and returns +Inf,
    which the conversion stores as the Value, not 0. *)
Lemma promdata2metric_range_error_not_zero :
  let promdata :=
    [("metric", IMap [("instance", IString "node-1")]);
     ("value", ISlice [INumber pos_zero; IString "1e999"])] in
  raw_result_object promdata "node-1" "1e999" /\
  snd (ParseFloat "1e999") = Some ErrRange /\
  promdata2metric promdata prom_cpu_metric prom_avg_method "5m"
    = Ok (watcher.mkMetric prom_avg_method watcher.CPU "5m" (S754_infinity false),
          "node-1") /\
  float64_eq (S754_infinity false) pos_zero = false.
Proof.
  repeat split; try (vm_compute; reflexivity).
  exists [("instance", IString "node-1")], (INumber pos_zero).
  split; reflexivity.
Qed.

(** C8 (amended): a failure to parse the text at index 1 never aborts the
    conversion of a raw result entry, and the error is discarded: the
    Value is what [ParseFloat] returned with it, 0 for a syntax error and
    an infinity for a range error. *)
Theorem promdata2metric_parse_failure
    (promdata : list (string * iface)) (host value metric method rollup : string) :
  raw_result_object promdata host value ->
  exists m,
    promdata2metric promdata metric method rollup = Ok (m, host) /\
    watcher.Value m = fst (ParseFloat value) /\
    (snd (ParseFloat value) = Some ErrSyntax -> watcher.Value m = pos_zero) /\
    (snd (ParseFloat value) = Some ErrRange ->
     exists sign, watcher.Value m = S754_infinity sign).
Proof.
  intros H. exists (metric_for metric method rollup value).
  split; [by apply promdata2metric_raw_result_object|].
  split; [reflexivity|].
  pose proof (ParseFloat_error_value value) as Herr.
  split; intros E; rewrite E in Herr; exact Herr.
Qed.

Lemma promdata2metric_parse_failure_witness :
  exists m,
    promdata2metric
      [("value", ISlice [IString "0"; IString "n/a"]);
       ("metric", IMap [("instance", IString "node-1")])]
      prom_mem_metric prom_std_method "5m" = Ok (m, "node-1") /\
    watcher.Value m = fst (ParseFloat "n/a") /\
    (snd (ParseFloat "n/a") = Some ErrSyntax -> watcher.Value m = pos_zero) /\
    (snd (ParseFloat "n/a") = Some ErrRange ->
     exists sign, watcher.Value m = S754_infinity sign).
Proof.
  apply (promdata2metric_parse_failure _ "node-1" "n/a").
  exists [("instance", IString "node-1")], (IString "0").
  split; [reflexivity|]. apply perm_swap.
Defined.

(** C9: every key other than "metric" is read as the value array, whatever
    its name.  A key whose value is not an array with a string at index 1
    makes the conversion panic in every iteration order; and a well-shaped
    value array under any such key, visited last, sets the Value: the
    metric returned has as Value the float parsed from the string at
    index 1 of that array, its other fields unchanged. *)
Theorem promdata2metric_every_other_key :
  (forall (promdata : list (string * iface)) (k : string) (v : iface)
          (metric method rollup : string),
      (k, v) ∈ promdata -> k <> "metric" -> value_string v = None ->
      panics (promdata2metric promdata metric method rollup)) /\
  (forall (promdata : list (string * iface)) (k : string)
          (timestamp : iface) (s : string) (more : list iface)
          (metric method rollup : string) (m : watcher.Metric) (h : string),
      k <> "metric" ->
      promdata2metric promdata metric method rollup = Ok (m, h) ->
      exists m',
        promdata2metric
          (promdata ++ [(k, ISlice (timestamp :: IString s :: more))])%list
          metric method rollup = Ok (m', h) /\
        watcher.Value m' = fst (ParseFloat s) /\
        watcher.Name m' = watcher.Name m /\
        watcher.Type_ m' = watcher.Type_ m /\
        watcher.Rollup m' = watcher.Rollup m).
Proof.
  split.
  - intros promdata k v metric method rollup Hin Hk Hv.
    unfold promdata2metric.
    apply range_fold_panics with (x := (k, v)); [done|].
    intros acc. by apply step_bad_value_panics.
  - intros promdata k ts s more metric method rollup m h Hk Hpre.
    exists (watcher.mkMetric (watcher.Name m) (watcher.Type_ m)
                             (watcher.Rollup m) (fst (ParseFloat s))).
    split; [|repeat split].
    unfold promdata2metric in *.
    rewrite (range_fold_snoc _ _ _ _ _ Hpre).
    by rewrite step_value_key.
Qed.

Lemma promdata2metric_every_other_key_witness :
  panics (promdata2metric
            [("metric", IMap [("instance", IString "node-1")]);
             ("values", ISlice [ISlice [INumber pos_zero; IString "1"]])]
            prom_cpu_metric prom_avg_method "5m") /\
  exists m',
    promdata2metric
      ([("metric", IMap [("instance", IString "node-1")])]
       ++ [("sample", ISlice [INumber pos_zero; IString "42.5"])])%list
      prom_cpu_metric prom_avg_method "5m" = Ok (m', "node-1") /\
    watcher.Value m' = fst (ParseFloat "42.5") /\
    watcher.Name m'
      = watcher.Name (watcher.mkMetric prom_avg_method watcher.CPU "5m" pos_zero) /\
    watcher.Type_ m'
      = watcher.Type_ (watcher.mkMetric prom_avg_method watcher.CPU "5m" pos_zero) /\
    watcher.Rollup m'
      = watcher.Rollup (watcher.mkMetric prom_avg_method watcher.CPU "5m" pos_zero).
Proof.
  split.
  - apply (proj1 promdata2metric_every_other_key _ "values"
             (ISlice [ISlice [INumber pos_zero; IString "1"]])).
    + apply list_elem_of_further, list_elem_of_here.
    + discriminate.
    + reflexivity.
  - apply (proj2 promdata2metric_every_other_key
             [("metric", IMap [("instance", IString "node-1")])] "sample"
             (INumber pos_zero) "42.5" [] prom_cpu_metric prom_avg_method "5m"
             (watcher.mkMetric prom_avg_method watcher.CPU "5m" pos_zero) "node-1").
    + discriminate.
    + reflexivity.
Defined.

(* ===================================================================== *)
(** ** The accumulating mapping *)
(* ===================================================================== *)

Lemma metrics_of_append (hostMetrics : HostMetrics) (h h' : string)
    (m : watcher.Metric) :
  metrics_of (append_metric hostMetrics h m) h'
  = if decide (h = h') then (metrics_of hostMetrics h ++ [m])%list
    else metrics_of hostMetrics h'.
Proof.
  unfold append_metric, metrics_of at 1.
  rewrite lookup_insert. by destruct (decide (h = h')).
Qed.

Lemma total_metrics_insert_fresh (hostMetrics : HostMetrics) (h : string)
    (l : list watcher.Metric) :
  hostMetrics !! h = None ->
  total_metrics (<[h := l]> hostMetrics)
  = (length l + total_metrics hostMetrics)%nat.
Proof.
  intros Hnone. unfold total_metrics.
  rewrite map_fold_insert_L; [reflexivity| |exact Hnone].
  intros; lia.
Qed.

Lemma total_metrics_append (hostMetrics : HostMetrics) (h : string)
    (m : watcher.Metric) :
  total_metrics (append_metric hostMetrics h m) = S (total_metrics hostMetrics).
Proof.
  unfold append_metric, metrics_of.
  destruct (hostMetrics !! h) as [l|] eqn:E; simpl.
  - rewrite <- insert_delete_eq.
    rewrite total_metrics_insert_fresh by apply lookup_delete_eq.
    rewrite <- (insert_delete_id hostMetrics h l E) at 2.
    rewrite total_metrics_insert_fresh by apply lookup_delete_eq.
    rewrite length_app. simpl. lia.
  - by rewrite total_metrics_insert_fresh.
Qed.

Lemma total_metrics_append_all (metric method rollup : string)
    (hvs : list (string * string)) (hostMetrics : HostMetrics) :
  total_metrics (append_all metric method rollup hostMetrics hvs)
  = (total_metrics hostMetrics + length hvs)%nat.
Proof.
  revert hostMetrics. induction hvs as [|hv hvs IH]; intros hm; simpl.
  - lia.
  - unfold append_all in *. simpl. rewrite IH, total_metrics_append. lia.
Qed.

Lemma metrics_of_append_all (metric method rollup : string)
    (hvs : list (string * string)) (hostMetrics : HostMetrics) (h : string) :
  metrics_of (append_all metric method rollup hostMetrics hvs) h
  = (metrics_of hostMetrics h
     ++ (metric_for metric method rollup <$> (filter (fun hv => hv.1 = h) hvs).*2))%list.
Proof.
  revert hostMetrics. induction hvs as [|[h0 v0] hvs IH]; intros hm.
  - simpl. by rewrite app_nil_r.
  - unfold append_all in *. simpl foldl. rewrite IH, metrics_of_append.
    rewrite filter_cons. simpl.
    destruct (decide (h0 = h)) as [->|Hne]; simpl.
    + by rewrite <- app_assoc.
    + reflexivity.
Qed.

(* ===================================================================== *)
(** ** The response normalizer *)
(* ===================================================================== *)

Section Normalizer.
Variable url_Parse_ok : string -> bool.
Variable G : Globals.
Variable s : promClient.
Variables metric method rollup : string.

Lemma add_result_raw_result_object (hostMetrics : HostMetrics)
    (promdata : list (string * iface)) (host value : string) :
  raw_result_object promdata host value ->
  add_result metric method rollup hostMetrics (IMap promdata)
  = Ok (append_metric hostMetrics host (metric_for metric method rollup value)).
Proof.
  intros H. unfold add_result. simpl.
  by rewrite (promdata2metric_raw_result_object _ _ _ _ _ _ H).
Qed.

Lemma add_result_non_object_panics (hostMetrics : HostMetrics) (x : iface) :
  (forall m, x <> IMap m) ->
  add_result metric method rollup hostMetrics x = Panic InterfaceConversion.
Proof.
  intros Hx. destruct x; try reflexivity. by destruct (Hx m).
Qed.

Lemma range_add_result_raw (es : list (list (string * iface)))
    (hvs : list (string * string)) (hostMetrics : HostMetrics) :
  Forall2 (fun e hv => raw_result_object e hv.1 hv.2) es hvs ->
  range_fold (add_result metric method rollup) hostMetrics (IMap <$> es)
  = Ok (append_all metric method rollup hostMetrics hvs).
Proof.
  intros H. revert hostMetrics.
  induction H as [|e hv es hvs He _ IH]; intros hm; simpl; [reflexivity|].
  rewrite (add_result_raw_result_object _ _ _ _ He). simpl. apply IH.
Qed.

(** What [updateAllHostMetrics] does with an OK response that carries a
    [data.result]. *)
Lemma updateAllHostMetrics_OK (hostMetrics : HostMetrics)
    (resp : http.Response) (promdata : iface) :
  query url_Parse_ok G s metric method rollup = Ok resp ->
  http.StatusCode resp = http.StatusOK ->
  http.Body resp !! "data" ≫= (fun data => data !! "result") = Some promdata ->
  updateAllHostMetrics url_Parse_ok G s hostMetrics metric method rollup
  = match promdata with
    | ISlice l => range_fold (add_result metric method rollup) hostMetrics l
    | IMap _ => add_result metric method rollup hostMetrics promdata
    | _ => Ok hostMetrics
    end.
Proof.
  intros Hq Hst Hres. unfold updateAllHostMetrics.
  rewrite Hq. simpl. rewrite Hst, Z.eqb_refl. simpl. by rewrite Hres.
Qed.

Lemma updateAllHostMetrics_not_OK (hostMetrics : HostMetrics)
    (resp : http.Response) :
  query url_Parse_ok G s metric method rollup = Ok resp ->
  http.StatusCode resp <> http.StatusOK ->
  updateAllHostMetrics url_Parse_ok G s hostMetrics metric method rollup
  = Ok hostMetrics.
Proof.
  intros Hq Hst. unfold updateAllHostMetrics. rewrite Hq. simpl.
  apply Z.eqb_neq in Hst. by rewrite Hst.
Qed.

End Normalizer.

(** C4: an OK response whose [data.result] is an array of N raw result
    objects adds exactly N metrics, each appended to the sequence of the
    host its own entry names; a single raw result object adds exactly one
    metric, to the sequence of the host it names. *)
Theorem updateAllHostMetrics_one_metric_per_entry
    (url_Parse_ok : string -> bool) (G : Globals) (s : promClient)
    (hostMetrics : HostMetrics) (metric method rollup : string)
    (resp : http.Response) :
  query url_Parse_ok G s metric method rollup = Ok resp ->
  http.StatusCode resp = http.StatusOK ->
  (forall (es : list (list (string * iface))) (hvs : list (string * string)),
      http.Body resp !! "data" ≫= (fun data => data !! "result")
        = Some (ISlice (IMap <$> es)) ->
      Forall2 (fun e hv => raw_result_object e hv.1 hv.2) es hvs ->
      exists hm',
        updateAllHostMetrics url_Parse_ok G s hostMetrics metric method rollup
          = Ok hm' /\
        total_metrics hm' = (total_metrics hostMetrics + length es)%nat /\
        forall h,
          metrics_of hm' h
          = (metrics_of hostMetrics h
             ++ (metric_for metric method rollup
                   <$> (filter (fun hv => hv.1 = h) hvs).*2))%list) /\
  (forall (e : list (string * iface)) (host value : string),
      http.Body resp !! "data" ≫= (fun data => data !! "result")
        = Some (IMap e) ->
      raw_result_object e host value ->
      exists hm',
        updateAllHostMetrics url_Parse_ok G s hostMetrics metric method rollup
          = Ok hm' /\
        total_metrics hm' = S (total_metrics hostMetrics) /\
        metrics_of hm' host
          = (metrics_of hostMetrics host
             ++ [metric_for metric method rollup value])%list /\
        forall h, h <> host -> metrics_of hm' h = metrics_of hostMetrics h).
Proof.
  intros Hq Hst. split.
  - intros es hvs Hres Hraw.
    exists (append_all metric method rollup hostMetrics hvs).
    rewrite (updateAllHostMetrics_OK _ _ _ _ _ _ _ _ _ Hq Hst Hres).
    split; [by apply range_add_result_raw|].
    split; [|apply metrics_of_append_all].
    rewrite total_metrics_append_all. by rewrite (Forall2_length _ _ _ Hraw).
  - intros e host value Hres Hraw.
    exists (append_metric hostMetrics host (metric_for metric method rollup value)).
    rewrite (updateAllHostMetrics_OK _ _ _ _ _ _ _ _ _ Hq Hst Hres).
    split; [by apply add_result_raw_result_object|].
    split; [apply total_metrics_append|].
    split.
    + rewrite metrics_of_append. by rewrite decide_True.
    + intros h Hne. rewrite metrics_of_append. by rewrite decide_False.
Qed.

(** C10: in the array case every element is asserted to be an object; an
    OK response whose [data.result] array holds an element that is not
    one makes [updateAllHostMetrics] panic, it is not skipped. *)
Theorem updateAllHostMetrics_non_object_element_panics
    (url_Parse_ok : string -> bool) (G : Globals) (s : promClient)
    (hostMetrics : HostMetrics) (metric method rollup : string)
    (resp : http.Response) (l : list iface) (x : iface) :
  query url_Parse_ok G s metric method rollup = Ok resp ->
  http.StatusCode resp = http.StatusOK ->
  http.Body resp !! "data" ≫= (fun data => data !! "result") = Some (ISlice l) ->
  x ∈ l ->
  (forall m, x <> IMap m) ->
  panics (updateAllHostMetrics url_Parse_ok G s hostMetrics metric method rollup).
Proof.
  intros Hq Hst Hres Hin Hx.
  rewrite (updateAllHostMetrics_OK _ _ _ _ _ _ _ _ _ Hq Hst Hres).
  apply range_fold_panics with (x := x); [done|].
  intros hm. rewrite add_result_non_object_panics by done. by eexists.
Qed.

Lemma raw_entry_raw_result_object (host value : string) :
  raw_result_object (raw_entry host value) host value.
Proof.
  exists [("instance", IString host)], (INumber pos_zero).
  split; reflexivity.
Qed.

Lemma updateAllHostMetrics_one_metric_per_entry_witness :
  (exists hm',
     updateAllHostMetrics any_url default_globals (url_client (fun _ => Some two_nodes))
       ∅ prom_cpu_metric prom_avg_method "5m" = Ok hm' /\
     total_metrics hm' = (total_metrics (∅ : HostMetrics) + 2)%nat /\
     forall h,
       metrics_of hm' h
       = (metrics_of ∅ h
          ++ (metric_for prom_cpu_metric prom_avg_method "5m"
                <$> (filter (fun hv => hv.1 = h)
                       [("node-1", "0.5"); ("node-2", "0.7")]).*2))%list) /\
  (exists hm',
     updateAllHostMetrics any_url default_globals (url_client (fun _ => Some one_node))
       ∅ prom_cpu_metric prom_avg_method "5m" = Ok hm' /\
     total_metrics hm' = S (total_metrics (∅ : HostMetrics)) /\
     metrics_of hm' "node-1"
       = (metrics_of ∅ "node-1"
          ++ [metric_for prom_cpu_metric prom_avg_method "5m" "0.73"])%list /\
     forall h, h <> "node-1" -> metrics_of hm' h = metrics_of ∅ h).
Proof.
  split.
  - apply (proj1 (updateAllHostMetrics_one_metric_per_entry
                    any_url default_globals (url_client (fun _ => Some two_nodes))
                    ∅ prom_cpu_metric prom_avg_method "5m" two_nodes
                    eq_refl eq_refl)
             [raw_entry "node-1" "0.5"; raw_entry "node-2" "0.7"]
             [("node-1", "0.5"); ("node-2", "0.7")]).
    + vm_compute. reflexivity.
    + repeat constructor; apply raw_entry_raw_result_object.
  - apply (proj2 (updateAllHostMetrics_one_metric_per_entry
                    any_url default_globals (url_client (fun _ => Some one_node))
                    ∅ prom_cpu_metric prom_avg_method "5m" one_node
                    eq_refl eq_refl)
             (raw_entry "node-1" "0.73") "node-1" "0.73").
    + vm_compute. reflexivity.
    + apply raw_entry_raw_result_object.
Defined.

Lemma updateAllHostMetrics_non_object_element_panics_witness :
  panics (updateAllHostMetrics any_url default_globals
            (url_client (fun _ => Some (http.mkResponse 200
               (envelope (ISlice [IMap (raw_entry "node-1" "0.5"); IString "node-2"])))))
            ∅ prom_cpu_metric prom_avg_method "5m").
Proof.
  eapply (updateAllHostMetrics_non_object_element_panics
            any_url default_globals _ ∅ prom_cpu_metric prom_avg_method "5m"
            _ _ (IString "node-2")).
  - reflexivity.
  - reflexivity.
  - vm_compute. reflexivity.
  - apply list_elem_of_further, list_elem_of_here.
  - discriminate.
Defined.

(* ===================================================================== *)
(** ** The fetch-all orchestrator *)
(* ===================================================================== *)

Section Orchestrator.
Variable url_Parse_ok : string -> bool.
Variable G : Globals.
Variable s : promClient.

(** The two nested loops visit the four combinations in order. *)
Lemma FetchAllHostsMetrics_combinations (w : watcher.Window) :
  FetchAllHostsMetrics url_Parse_ok G s (Some w)
  = (hm ← run_combinations url_Parse_ok G s (watcher.Duration w) combinations ∅;
     Ok (hm, None)).
Proof.
  unfold FetchAllHostsMetrics, run_combinations, combinations. simpl.
  repeat match goal with
         | |- context [updateAllHostMetrics ?a ?b ?c ?d ?e ?f ?g] =>
             destruct (updateAllHostMetrics a b c d e f g); simpl; try reflexivity
         end.
Qed.

(** A combination answered with a non-OK status can be left out of the
    loop without changing its outcome. *)
Lemma run_combinations_skip (rollup : string) (pre post : list (string * string))
    (c : string * string) (resp : http.Response) (hostMetrics : HostMetrics) :
  query url_Parse_ok G s c.2 c.1 rollup = Ok resp ->
  http.StatusCode resp <> http.StatusOK ->
  run_combinations url_Parse_ok G s rollup (pre ++ c :: post)%list hostMetrics
  = run_combinations url_Parse_ok G s rollup (pre ++ post)%list hostMetrics.
Proof.
  intros Hq Hst. unfold run_combinations.
  rewrite !range_fold_app.
  destruct (range_fold _ hostMetrics pre) as [hm|p]; simpl; [|reflexivity].
  by rewrite (updateAllHostMetrics_not_OK _ _ _ _ _ _ _ _ Hq Hst).
Qed.

(** A request that fails in transport leaves [resp] nil, and reading
    [resp.StatusCode] panics. *)
Lemma updateAllHostMetrics_transport_failure (hostMetrics : HostMetrics)
    (metric method rollup : string) :
  (forall req, http.Do (client s) req = None) ->
  updateAllHostMetrics url_Parse_ok G s hostMetrics metric method rollup
  = Panic NilDereference.
Proof.
  intros Hdo. unfold updateAllHostMetrics, query, http_NewRequest.
  destruct (url_Parse_ok _); simpl; [|reflexivity].
  by rewrite Hdo.
Qed.

End Orchestrator.

(** C6: whenever [FetchAllHostsMetrics] returns, its error result is nil. *)
Theorem FetchAllHostsMetrics_error_is_nil
    (url_Parse_ok : string -> bool) (G : Globals) (s : promClient)
    (window : option watcher.Window) (hostMetrics : HostMetrics)
    (err : option string) :
  FetchAllHostsMetrics url_Parse_ok G s window = Ok (hostMetrics, err) ->
  err = None.
Proof.
  unfold FetchAllHostsMetrics.
  destruct (range_fold _ ∅ _) as [hm|p]; simpl; intros H; by inversion H.
Qed.

Lemma FetchAllHostsMetrics_error_is_nil_witness :
  exists hm err,
    FetchAllHostsMetrics any_url default_globals
      (url_client (fun _ => Some one_node)) window_5m = Ok (hm, err) /\
    err = None.
Proof.
  eexists _, _. split; [vm_compute; reflexivity|].
  eapply (FetchAllHostsMetrics_error_is_nil any_url default_globals
            (url_client (fun _ => Some one_node)) window_5m).
  vm_compute. reflexivity.
Defined.

(** C2 (as the code behaves): a transport failure is not tolerated.
    [client.Do] then returns a nil response, the error is dropped, and
    reading [resp.StatusCode] on line 106 panics: the fetch is aborted and
    no mapping is returned, even when only the last of the four requests
    fails after three that succeeded. *)
Theorem FetchAllHostsMetrics_transport_failure_panics :
  FetchAllHostsMetrics any_url default_globals (url_client (fun _ => None)) window_5m
    = Panic NilDereference /\
  FetchAllHostsMetrics any_url default_globals last_request_fails window_5m
    = Panic NilDereference.
Proof. split; vm_compute; reflexivity. Qed.

(* ===================================================================== *)
(** ** The query builder *)
(* ===================================================================== *)

(** C7 as stated fails: the query expression is put into the URL as it
    is, parentheses, colons and brackets included; URL-encoding it would
    give a different string. *)
Lemma promURLStr_not_url_encoded :
  promURLStr default_globals prom_cpu_metric prom_avg_method "5m"
    = "http://prometheus-k8s:9090/api/v1/query?query=avg_over_time(instance:node_cpu:ratio[5m])" /\
  url_encoded_query_URL default_globals prom_cpu_metric prom_avg_method "5m"
    = "http://prometheus-k8s:9090/api/v1/query?query=avg_over_time%28instance%3Anode_cpu%3Aratio%5B5m%5D%29" /\
  promURLStr default_globals prom_cpu_metric prom_avg_method "5m"
    <> url_encoded_query_URL default_globals prom_cpu_metric prom_avg_method "5m".
Proof. repeat split; try (vm_compute; reflexivity). vm_compute. discriminate. Qed.

(** C7 (amended): for every backend host, method, metric and rollup the
    query builder produces [http://<backend-host>/api/v1/query?query=]
    followed by the expression [<method>(<metric>[<rollup>])] verbatim;
    it is string formatting, total on all inputs. *)
Theorem promURLStr_format (G : Globals) (metric method rollup : string) :
  promURLStr G metric method rollup
  = "http://" ++ promHost G ++ "/api/v1/query?query="
    ++ method ++ "(" ++ metric ++ "[" ++ rollup ++ "])".
Proof.
  unfold promURLStr, promQuery. cbn [fmt.Sprintf String.append].
  reflexivity.
Qed.


(* ===================================================================== *)
(** ** Per-entry conversion: every shape of input *)
(* ===================================================================== *)

Lemma result_bind_Ok {A B : Type} (a : A) (k : A -> result B) :
  (Ok a ≫= k) = k a.
Proof. reflexivity. Qed.

Lemma range_fold_cons {A B : Type} (f : A -> B -> result A) (acc : A)
    (x : B) (l : list B) :
  range_fold f acc (x :: l) = (acc' ← f acc x; range_fold f acc' l).
Proof. reflexivity. Qed.

Lemma set_Value_set_Value (m : watcher.Metric) (a b : float64) :
  set_Value (set_Value m a) b = set_Value m b.
Proof. reflexivity. Qed.

Lemma step_entry_ok (m : watcher.Metric) (h : string) (kv : string * iface) :
  entry_ok kv = true ->
  promdata2metric_step (m, h) kv
  = Ok (match entry_value kv with
        | Some s => set_Value m (fst (ParseFloat s))
        | None => m
        end,
        default h (entry_host kv)).
Proof.
  destruct kv as [k v]. unfold entry_ok, entry_value, entry_host. cbn [fst snd].
  destruct (String.eqb_spec k "metric") as [->|Hk].
  - destruct v as [| | | | |labels]; try reflexivity.
    rewrite step_metric_key.
    by destruct (map_index labels "instance").
  - rewrite step_value_key by done.
    by destruct (value_string v).
Qed.

Lemma step_entry_bad (acc : watcher.Metric * string) (kv : string * iface) :
  entry_ok kv = false -> panics (promdata2metric_step acc kv).
Proof.
  destruct kv as [k v], acc as [m h]. unfold entry_ok. cbn [fst snd].
  destruct (String.eqb_spec k "metric") as [->|Hk].
  - destruct v as [| | | | |labels]; try discriminate.
    rewrite step_metric_key.
    destruct (map_index labels "instance"); try discriminate;
      intros _; eexists; reflexivity.
  - destruct (value_string v) eqn:E; [discriminate|].
    intros _. by apply step_bad_value_panics.
Qed.

Lemma forallb_false_elem {A : Type} (f : A -> bool) (l : list A) :
  forallb f l = false -> exists x, x ∈ l /\ f x = false.
Proof.
  induction l as [|x l IH]; simpl; [discriminate|].
  destruct (f x) eqn:E; simpl.
  - intros H. destruct (IH H) as (y & Hy & Hf).
    exists y. split; [by apply list_elem_of_further | done].
  - intros _. exists x. split; [apply list_elem_of_here | done].
Qed.

(** The loop over entries that all pass: the last value text and the last
    host assigned win. *)
Lemma range_fold_entries_ok (p : list (string * iface)) (m : watcher.Metric)
    (h : string) :
  forallb entry_ok p = true ->
  range_fold promdata2metric_step (m, h) p
  = Ok (match last (omap entry_value p) with
        | Some s => set_Value m (fst (ParseFloat s))
        | None => m
        end,
        default h (last (omap entry_host p))).
Proof.
  revert m h. induction p as [|kv p IH]; intros m h Hall; [reflexivity|].
  simpl in Hall. apply andb_true_iff in Hall as [Hkv Hp].
  rewrite range_fold_cons, (step_entry_ok _ _ _ Hkv), result_bind_Ok.
  rewrite (IH _ _ Hp). cbn [omap list_omap].
  destruct (entry_value kv) as [s|], (entry_host kv) as [h0|]; simpl;
    rewrite ?last_cons;
    destruct (last (omap entry_value p)), (last (omap entry_host p));
    reflexivity.
Qed.

Lemma promdata2metric_entries_ok (p : list (string * iface))
    (metric method rollup : string) :
  forallb entry_ok p = true ->
  promdata2metric p metric method rollup
  = Ok (watcher.mkMetric method
          (if String.eqb metric prom_cpu_metric then watcher.CPU else watcher.Memory)
          rollup
          (match last (omap entry_value p) with
           | Some s => fst (ParseFloat s)
           | None => pos_zero
           end),
        default "" (last (omap entry_host p))).
Proof.
  intros H. unfold promdata2metric. rewrite (range_fold_entries_ok _ _ _ H).
  by destruct (last (omap entry_value p)).
Qed.

Lemma promdata2metric_entry_bad (p : list (string * iface))
    (metric method rollup : string) :
  forallb entry_ok p = false ->
  panics (promdata2metric p metric method rollup).
Proof.
  intros H. destruct (forallb_false_elem _ _ H) as (kv & Hin & Hbad).
  unfold promdata2metric. apply range_fold_panics with (x := kv); [done|].
  intros acc. by apply step_entry_bad.
Qed.

(** X1: the conversion returns exactly when every entry is well shaped,
    whatever the order of the entries; otherwise it panics. *)
Theorem promdata2metric_returns_iff (p : list (string * iface))
    (metric method rollup : string) :
  (exists r, promdata2metric p metric method rollup = Ok r)
  <-> forallb entry_ok p = true.
Proof.
  split.
  - intros [r Hr]. destruct (forallb entry_ok p) eqn:E; [reflexivity|].
    destruct (promdata2metric_entry_bad p metric method rollup E) as [q Hq].
    congruence.
  - intros H. eexists. by apply promdata2metric_entries_ok.
Qed.

(** X2: whatever the entry holds, a metric that comes out of the
    conversion carries the method as Name, the rollup as Rollup, and the
    type CPU exactly when the queried metric is the CPU metric name (any
    other name gives Memory). *)
Theorem promdata2metric_labels (p : list (string * iface))
    (metric method rollup : string) (m : watcher.Metric) (h : string) :
  promdata2metric p metric method rollup = Ok (m, h) ->
  watcher.Name m = method /\
  watcher.Rollup m = rollup /\
  (watcher.Type_ m = watcher.CPU <-> metric = prom_cpu_metric) /\
  (watcher.Type_ m = watcher.Memory <-> metric <> prom_cpu_metric).
Proof.
  intros H.
  assert (Hall : forallb entry_ok p = true).
  { destruct (forallb entry_ok p) eqn:E; [reflexivity|].
    destruct (promdata2metric_entry_bad p metric method rollup E) as [q Hq].
    congruence. }
  rewrite (promdata2metric_entries_ok _ _ _ _ Hall) in H.
  injection H as <- _. simpl.
  destruct (String.eqb_spec metric prom_cpu_metric); repeat split; try done.
Qed.

(** X3: when every entry is well shaped the outcome is fixed by the
    entries visited last: Value is parsed from the last value array (0 if
    the object has none) and the host is the [instance] of the last
    object found under "metric" ("" if there is none). *)
Theorem promdata2metric_last_entry_wins (p : list (string * iface))
    (metric method rollup : string) :
  forallb entry_ok p = true ->
  exists m,
    promdata2metric p metric method rollup
      = Ok (m, default "" (last (omap entry_host p))) /\
    watcher.Value m
    = match last (omap entry_value p) with
      | Some s => fst (ParseFloat s)
      | None => pos_zero
      end.
Proof.
  intros H. eexists. split; [by apply promdata2metric_entries_ok|reflexivity].
Qed.

Lemma promdata2metric_last_entry_wins_witness :
  exists m,
    promdata2metric
      [("value", ISlice [INumber pos_zero; IString "1"]);
       ("metric", IMap [("instance", IString "node-7")]);
       ("sample", ISlice [INumber pos_zero; IString "42.5"])]
      prom_mem_metric prom_std_method "1h"
      = Ok (m, "node-7") /\
    watcher.Value m = fst (ParseFloat "42.5").
Proof.
  apply (promdata2metric_last_entry_wins
           [("value", ISlice [INumber pos_zero; IString "1"]);
            ("metric", IMap [("instance", IString "node-7")]);
            ("sample", ISlice [INumber pos_zero; IString "42.5"])]
           prom_mem_metric prom_std_method "1h").
  reflexivity.
Defined.

Lemma omap_all_None {A B : Type} (f : A -> option B) (l : list A) :
  (forall x, x ∈ l -> f x = None) -> omap f l = [].
Proof.
  induction l as [|x l IH]; intros H; [reflexivity|].
  cbn [omap list_omap]. rewrite (H x) by apply list_elem_of_here.
  apply IH. intros y Hy. apply H. by apply list_elem_of_further.
Qed.

Lemma forallb_elem {A : Type} (f : A -> bool) (l : list A) :
  (forall x, x ∈ l -> f x = true) -> forallb f l = true.
Proof.
  intros H. apply forallb_forall. intros x Hx. apply H.
  by apply list_elem_of_In.
Qed.

(** X4: a "metric" key that is absent, or holds something that is not an
    object, is tolerated: provided the other keys hold value arrays, the
    conversion returns and the host key is the empty string. *)
Theorem promdata2metric_no_metric_object (p : list (string * iface))
    (metric method rollup : string) :
  (forall k v, (k, v) ∈ p -> k = "metric" -> forall labels, v <> IMap labels) ->
  (forall k v, (k, v) ∈ p -> k <> "metric" -> is_Some (value_string v)) ->
  exists m, promdata2metric p metric method rollup = Ok (m, "").
Proof.
  intros Hmetric Hother.
  assert (Hok : forallb entry_ok p = true).
  { apply forallb_elem. intros [k v] Hin. unfold entry_ok. cbn [fst snd].
    destruct (String.eqb_spec k "metric") as [->|Hk].
    - destruct v as [| | | | |labels]; try reflexivity.
      by destruct (Hmetric _ _ Hin eq_refl labels).
    - by destruct (Hother _ _ Hin Hk) as [s ->]. }
  assert (Hhost : omap entry_host p = []).
  { apply omap_all_None. intros [k v] Hin. unfold entry_host. cbn [fst snd].
    destruct (String.eqb_spec k "metric") as [->|Hk]; [|reflexivity].
    destruct v as [| | | | |labels]; try reflexivity.
    by destruct (Hmetric _ _ Hin eq_refl labels). }
  eexists. rewrite (promdata2metric_entries_ok _ _ _ _ Hok), Hhost. reflexivity.
Qed.

Lemma promdata2metric_no_metric_object_witness :
  exists m,
    promdata2metric
      [("metric", IString "up"); ("value", ISlice [INumber pos_zero; IString "1"])]
      prom_cpu_metric prom_avg_method "5m" = Ok (m, "").
Proof.
  apply (promdata2metric_no_metric_object
           [("metric", IString "up"); ("value", ISlice [INumber pos_zero; IString "1"])]).
  - intros k v Hin Hk labels ->.
    apply list_elem_of_In in Hin. simpl in Hin.
    destruct Hin as [H|[H|[]]]; inversion H; subst; discriminate.
  - intros k v Hin Hk.
    apply list_elem_of_In in Hin. simpl in Hin.
    destruct Hin as [H|[H|[]]]; inversion H; subst; [done|by eexists].
Defined.

(** X5: an object without any key besides "metric" (the empty object
    included) yields Value 0: the zero value of the struct is never
    overwritten. *)
Theorem promdata2metric_no_value_key (p : list (string * iface))
    (metric method rollup : string) (m : watcher.Metric) (h : string) :
  (forall k v, (k, v) ∈ p -> k = "metric") ->
  promdata2metric p metric method rollup = Ok (m, h) ->
  watcher.Value m = pos_zero.
Proof.
  intros Hkeys Hret.
  assert (Hok : forallb entry_ok p = true).
  { destruct (forallb entry_ok p) eqn:E; [reflexivity|].
    destruct (promdata2metric_entry_bad p metric method rollup E) as [q Hq].
    congruence. }
  assert (Hval : omap entry_value p = []).
  { apply omap_all_None. intros [k v] Hin. unfold entry_value. cbn [fst snd].
    by rewrite (Hkeys _ _ Hin). }
  rewrite (promdata2metric_entries_ok _ _ _ _ Hok), Hval in Hret.
  by injection Hret as <- _.
Qed.

Lemma promdata2metric_no_value_key_witness :
  promdata2metric [("metric", IMap [("instance", IString "node-1")])]
    prom_cpu_metric prom_avg_method "5m"
    = Ok (watcher.mkMetric prom_avg_method watcher.CPU "5m" pos_zero, "node-1") /\
  watcher.Value (watcher.mkMetric prom_avg_method watcher.CPU "5m" pos_zero)
    = pos_zero.
Proof.
  split; [reflexivity|].
  apply (promdata2metric_no_value_key
           [("metric", IMap [("instance", IString "node-1")])]
           prom_cpu_metric prom_avg_method "5m" _ "node-1").
  - intros k v Hin. apply list_elem_of_In in Hin. simpl in Hin.
    destruct Hin as [H|[]]. by inversion H.
  - reflexivity.
Defined.

Lemma promdata2metric_labels_witness :
  watcher.Name (watcher.mkMetric "quantile_over_time" watcher.Memory "30s" (fst (ParseFloat "0.5")))
    = "quantile_over_time" /\
  watcher.Rollup (watcher.mkMetric "quantile_over_time" watcher.Memory "30s" (fst (ParseFloat "0.5")))
    = "30s" /\
  (watcher.Type_ (watcher.mkMetric "quantile_over_time" watcher.Memory "30s" (fst (ParseFloat "0.5")))
     = watcher.CPU <-> "instance:node_memory_utilization:ratio" = prom_cpu_metric) /\
  (watcher.Type_ (watcher.mkMetric "quantile_over_time" watcher.Memory "30s" (fst (ParseFloat "0.5")))
     = watcher.Memory <-> "instance:node_memory_utilization:ratio" <> prom_cpu_metric).
Proof.
  apply (promdata2metric_labels (raw_entry "node-1" "0.5")
           "instance:node_memory_utilization:ratio" "quantile_over_time" "30s" _ "node-1").
  reflexivity.
Defined.

(** X6: with two keys besides "metric" the outcome depends on the order
    in which the map is visited: the value array visited second sets the
    Value, so the two orders give the two different texts' values. *)
Theorem promdata2metric_value_depends_on_order
    (k1 k2 : string) (t1 t2 : iface) (s1 s2 metric method rollup : string) :
  k1 <> "metric" -> k2 <> "metric" ->
  promdata2metric [(k1, ISlice [t1; IString s1]); (k2, ISlice [t2; IString s2])]
                  metric method rollup
    = Ok (metric_for metric method rollup s2, "") /\
  promdata2metric [(k2, ISlice [t2; IString s2]); (k1, ISlice [t1; IString s1])]
                  metric method rollup
    = Ok (metric_for metric method rollup s1, "").
Proof.
  intros H1 H2. unfold promdata2metric.
  rewrite !range_fold_cons, !step_value_key by done. cbn [value_string].
  rewrite !result_bind_Ok. cbn beta.
  rewrite !range_fold_cons, !step_value_key by done. cbn [value_string].
  split; reflexivity.
Qed.

Lemma promdata2metric_value_depends_on_order_witness :
  promdata2metric [("value", ISlice [INumber pos_zero; IString "1"]);
                   ("sample", ISlice [INumber pos_zero; IString "2"])]
                  prom_cpu_metric prom_avg_method "5m"
    = Ok (metric_for prom_cpu_metric prom_avg_method "5m" "2", "") /\
  promdata2metric [("sample", ISlice [INumber pos_zero; IString "2"]);
                   ("value", ISlice [INumber pos_zero; IString "1"])]
                  prom_cpu_metric prom_avg_method "5m"
    = Ok (metric_for prom_cpu_metric prom_avg_method "5m" "1", "").
Proof.
  apply (promdata2metric_value_depends_on_order "value" "sample"); discriminate.
Defined.

Lemma omap_entry_host_absent (p : list (string * iface)) :
  "metric" ∉ p.*1 -> omap entry_host p = [].
Proof.
  intros Hnot. apply omap_all_None. intros [k v] Hin. unfold entry_host.
  cbn [fst snd]. destruct (String.eqb_spec k "metric") as [->|]; [|reflexivity].
  destruct Hnot. apply list_elem_of_fmap. by exists ("metric", v).
Qed.

Lemma omap_entry_host_length (p : list (string * iface)) :
  NoDup p.*1 -> (length (omap entry_host p) <= 1)%nat.
Proof.
  induction p as [|[k v] p IH]; intros Hnd; [simpl; lia|].
  rewrite fmap_cons in Hnd. apply NoDup_cons in Hnd as [Hk Hnd].
  cbn [omap list_omap].
  destruct (entry_host (k, v)) as [h|] eqn:E; [|by apply IH].
  assert (k = "metric") as ->.
  { unfold entry_host in E. cbn [fst snd] in E.
    by destruct (String.eqb_spec k "metric"). }
  rewrite (omap_entry_host_absent _ Hk). simpl. lia.
Qed.

Lemma omap_entry_value_length (p : list (string * iface)) :
  (length (omap entry_value p)
   <= length (filter (fun kv => kv.1 <> "metric") p))%nat.
Proof.
  induction p as [|[k v] p IH]; [simpl; lia|].
  cbn [omap list_omap]. rewrite filter_cons. unfold entry_value at 1.
  cbn [fst snd].
  destruct (String.eqb_spec k "metric") as [->|Hk].
  - rewrite decide_False by (intros H; by apply H). exact IH.
  - rewrite decide_True by done.
    destruct (value_string v); simpl; lia.
Qed.

Lemma short_Permutation {A : Type} (l l' : list A) :
  l ≡ₚ l' -> (length l <= 1)%nat -> l = l'.
Proof.
  intros Hp Hlen. destruct l as [|x [|y l]]; simpl in Hlen; [| |lia].
  - by apply Permutation_nil in Hp.
  - by apply Permutation_length_1_inv in Hp.
Qed.

Lemma forallb_Permutation {A : Type} (f : A -> bool) (l l' : list A) :
  l ≡ₚ l' -> forallb f l = true -> forallb f l' = true.
Proof.
  intros Hp H. apply forallb_forall. intros x Hx.
  apply (proj1 (forallb_forall f l) H).
  by apply (Permutation_in x (Permutation_sym Hp)).
Qed.

(** X7: for an object as a Go map holds it with the backend's shape
    (distinct keys, at most one key besides "metric") the outcome does not
    depend on the iteration order: whatever one order returns, every
    other order returns as well. *)
Theorem promdata2metric_order_independent (p p' : list (string * iface))
    (metric method rollup : string) (r : watcher.Metric * string) :
  p ≡ₚ p' ->
  NoDup p.*1 ->
  (length (filter (fun kv => kv.1 <> "metric") p) <= 1)%nat ->
  promdata2metric p metric method rollup = Ok r ->
  promdata2metric p' metric method rollup = Ok r.
Proof.
  intros Hperm Hnd Hone Hret.
  assert (Hok : forallb entry_ok p = true).
  { destruct (forallb entry_ok p) eqn:E; [reflexivity|].
    destruct (promdata2metric_entry_bad p metric method rollup E) as [q Hq].
    congruence. }
  rewrite (promdata2metric_entries_ok _ _ _ _ Hok) in Hret.
  rewrite (promdata2metric_entries_ok _ _ _ _ (forallb_Permutation _ _ _ Hperm Hok)).
  rewrite <- Hret.
  assert (omap entry_host p = omap entry_host p') as ->.
  { apply short_Permutation; [by apply omap_Permutation|].
    by apply omap_entry_host_length. }
  assert (omap entry_value p = omap entry_value p') as ->.
  { apply short_Permutation; [by apply omap_Permutation|].
    pose proof (omap_entry_value_length p). lia. }
  reflexivity.
Qed.

Lemma promdata2metric_order_independent_witness :
  promdata2metric
    [("value", ISlice [INumber pos_zero; IString "0.5"]);
     ("metric", IMap [("instance", IString "node-1")])]
    prom_cpu_metric prom_avg_method "5m"
  = Ok (metric_for prom_cpu_metric prom_avg_method "5m" "0.5", "node-1").
Proof.
  apply (promdata2metric_order_independent (raw_entry "node-1" "0.5")).
  - apply perm_swap.
  - apply NoDup_cons. split.
    + intros Hin. apply list_elem_of_In in Hin. simpl in Hin.
      destruct Hin as [H|[]]. discriminate.
    + apply NoDup_singleton.
  - vm_compute. lia.
  - reflexivity.
Defined.

(* ===================================================================== *)
(** ** The normalizer: every response *)
(* ===================================================================== *)

Lemma promdata2metric_labelled (p : list (string * iface))
    (metric method rollup : string) (m : watcher.Metric) (h : string) :
  promdata2metric p metric method rollup = Ok (m, h) ->
  labelled metric method rollup m.
Proof.
  intros H.
  destruct (forallb entry_ok p) eqn:E.
  - rewrite (promdata2metric_entries_ok _ _ _ _ E) in H.
    injection H as <- _. by repeat split.
  - destruct (promdata2metric_entry_bad p metric method rollup E) as [q Hq].
    congruence.
Qed.

Lemma extends_with_refl (P : watcher.Metric -> Prop) (hm : HostMetrics) :
  extends_with P hm hm.
Proof.
  split; [done|]. intros h. exists []. by rewrite app_nil_r.
Qed.

Lemma extends_with_trans (P : watcher.Metric -> Prop) (hm1 hm2 hm3 : HostMetrics) :
  extends_with P hm1 hm2 -> extends_with P hm2 hm3 -> extends_with P hm1 hm3.
Proof.
  intros [Hd1 Ha1] [Hd2 Ha2]. split; [intros h Hh; exact (Hd2 h (Hd1 h Hh))|].
  intros h. destruct (Ha1 h) as (a1 & E1 & F1), (Ha2 h) as (a2 & E2 & F2).
  exists (a1 ++ a2)%list. split; [|by apply Forall_app_2].
  by rewrite E2, E1, app_assoc.
Qed.

Lemma extends_with_append (P : watcher.Metric -> Prop) (hm : HostMetrics)
    (h : string) (m : watcher.Metric) :
  P m -> extends_with P hm (append_metric hm h m).
Proof.
  intros Hm. split.
  - intros h' Hsome. unfold append_metric. rewrite lookup_insert.
    by destruct (decide (h = h')).
  - intros h'. rewrite metrics_of_append.
    destruct (decide (h = h')) as [->|].
    + exists [m]. split; [reflexivity|by constructor].
    + exists []. by rewrite app_nil_r.
Qed.

Section EveryResponse.
Variable url_Parse_ok : string -> bool.
Variable G : Globals.
Variable s : promClient.
Variables metric method rollup : string.

Lemma add_result_extends (hm hm' : HostMetrics) (x : iface) :
  add_result metric method rollup hm x = Ok hm' ->
  extends_with (labelled metric method rollup) hm hm'.
Proof.
  unfold add_result. destruct x as [| | | | |p]; try discriminate.
  cbn [assert_map]. rewrite result_bind_Ok.
  destruct (promdata2metric p metric method rollup) as [[m h]|q] eqn:E;
    [|discriminate].
  rewrite result_bind_Ok. intros [= <-].
  apply extends_with_append. by apply (promdata2metric_labelled p _ _ _ _ h).
Qed.

Lemma range_add_result_extends (l : list iface) (hm hm' : HostMetrics) :
  range_fold (add_result metric method rollup) hm l = Ok hm' ->
  extends_with (labelled metric method rollup) hm hm'.
Proof.
  revert hm. induction l as [|x l IH]; intros hm.
  - intros [= <-]. apply extends_with_refl.
  - rewrite range_fold_cons.
    destruct (add_result metric method rollup hm x) as [hm1|q] eqn:E;
      [|discriminate].
    rewrite result_bind_Ok. intros H.
    eapply extends_with_trans; [exact (add_result_extends _ _ _ E)|by apply IH].
Qed.

Lemma updateAllHostMetrics_extends (hm hm' : HostMetrics) :
  updateAllHostMetrics url_Parse_ok G s hm metric method rollup = Ok hm' ->
  extends_with (labelled metric method rollup) hm hm'.
Proof.
  unfold updateAllHostMetrics.
  destruct (query url_Parse_ok G s metric method rollup) as [resp|q];
    [|discriminate].
  rewrite result_bind_Ok.
  destruct (negb _); [intros [= <-]; apply extends_with_refl|].
  destruct (http.Body resp !! "data" ≫= _) as [promdata|];
    [|intros [= <-]; apply extends_with_refl].
  destruct promdata as [| | | |l|p];
    try (intros [= <-]; apply extends_with_refl).
  - apply range_add_result_extends.
  - apply add_result_extends.
Qed.

Lemma updateAllHostMetrics_without_result (hm : HostMetrics)
    (resp : http.Response) :
  query url_Parse_ok G s metric method rollup = Ok resp ->
  (forall l, http.Body resp !! "data" ≫= (fun data => data !! "result")
             <> Some (ISlice l)) ->
  (forall e, http.Body resp !! "data" ≫= (fun data => data !! "result")
             <> Some (IMap e)) ->
  updateAllHostMetrics url_Parse_ok G s hm metric method rollup = Ok hm.
Proof.
  intros Hq Hs Hm. unfold updateAllHostMetrics. rewrite Hq, result_bind_Ok.
  destruct (negb _); [reflexivity|].
  destruct (http.Body resp !! "data" ≫= _) as [promdata|]; [|reflexivity].
  destruct promdata as [| | | |l|p]; try reflexivity.
  - by destruct (Hs l).
  - by destruct (Hm p).
Qed.

End EveryResponse.

(** X8: whatever the response, a call that returns has only appended:
    every host of the mapping is still there, each host's sequence keeps
    its former metrics as a prefix, and every metric added carries the
    method, the rollup and the type of this query. *)
Theorem updateAllHostMetrics_only_appends
    (url_Parse_ok : string -> bool) (G : Globals) (s : promClient)
    (hm hm' : HostMetrics) (metric method rollup : string) :
  updateAllHostMetrics url_Parse_ok G s hm metric method rollup = Ok hm' ->
  (forall h, is_Some (hm !! h) -> is_Some (hm' !! h)) /\
  forall h, exists added,
    metrics_of hm' h = (metrics_of hm h ++ added)%list /\
    Forall (fun m =>
              watcher.Name m = method /\ watcher.Rollup m = rollup /\
              watcher.Type_ m
              = if String.eqb metric prom_cpu_metric
                then watcher.CPU else watcher.Memory) added.
Proof. apply updateAllHostMetrics_extends. Qed.

Lemma updateAllHostMetrics_only_appends_witness :
  (forall h,
     is_Some ((append_metric ∅ "node-9"
                 (metric_for prom_cpu_metric prom_avg_method "5m" "1") : HostMetrics) !! h) ->
     is_Some ((append_all prom_mem_metric prom_std_method "5m"
                 (append_metric ∅ "node-9"
                    (metric_for prom_cpu_metric prom_avg_method "5m" "1"))
                 [("node-1", "0.5"); ("node-2", "0.7")]) !! h)) /\
  forall h, exists added,
    metrics_of (append_all prom_mem_metric prom_std_method "5m"
                  (append_metric ∅ "node-9"
                     (metric_for prom_cpu_metric prom_avg_method "5m" "1"))
                  [("node-1", "0.5"); ("node-2", "0.7")]) h
    = (metrics_of (append_metric ∅ "node-9"
                     (metric_for prom_cpu_metric prom_avg_method "5m" "1")) h
       ++ added)%list /\
    Forall (fun m =>
              watcher.Name m = prom_std_method /\ watcher.Rollup m = "5m" /\
              watcher.Type_ m
              = if String.eqb prom_mem_metric prom_cpu_metric
                then watcher.CPU else watcher.Memory) added.
Proof.
  apply (updateAllHostMetrics_only_appends any_url default_globals
           (constant_client (Some two_nodes)) _ _ prom_mem_metric prom_std_method "5m").
  vm_compute. reflexivity.
Defined.

(** X9: unless the response carries an array or an object as
    [data.result], the mapping comes back unchanged: a missing [data], a
    missing [result], a null, a string, a number or a boolean add
    nothing and raise nothing. *)
Theorem updateAllHostMetrics_unrecognized_unchanged
    (url_Parse_ok : string -> bool) (G : Globals) (s : promClient)
    (hm : HostMetrics) (metric method rollup : string) (resp : http.Response) :
  query url_Parse_ok G s metric method rollup = Ok resp ->
  (forall l, http.Body resp !! "data" ≫= (fun data => data !! "result")
             <> Some (ISlice l)) ->
  (forall e, http.Body resp !! "data" ≫= (fun data => data !! "result")
             <> Some (IMap e)) ->
  updateAllHostMetrics url_Parse_ok G s hm metric method rollup = Ok hm.
Proof. apply updateAllHostMetrics_without_result. Qed.

Lemma updateAllHostMetrics_unrecognized_unchanged_witness :
  updateAllHostMetrics any_url default_globals
    (constant_client (Some (http.mkResponse 200 {[ "status" := ∅ ]})))
    ∅ prom_cpu_metric prom_avg_method "5m" = Ok ∅ /\
  updateAllHostMetrics any_url default_globals
    (constant_client (Some (http.mkResponse 200 (envelope (IString "vector")))))
    ∅ prom_cpu_metric prom_avg_method "5m" = Ok ∅.
Proof.
  split.
  - apply (updateAllHostMetrics_unrecognized_unchanged any_url default_globals
             _ ∅ _ _ _ (http.mkResponse 200 {[ "status" := ∅ ]}));
      [reflexivity| |]; intros x; vm_compute; discriminate.
  - apply (updateAllHostMetrics_unrecognized_unchanged any_url default_globals
             _ ∅ _ _ _ (http.mkResponse 200 (envelope (IString "vector"))));
      [reflexivity| |]; intros x; vm_compute; discriminate.
Defined.

(** X10: when the query URL does not parse, [http.NewRequest] returns a
    nil request whose error is dropped, and setting the first header
    panics: no request is sent, whatever the client. *)
Theorem updateAllHostMetrics_bad_URL_panics
    (url_Parse_ok : string -> bool) (G : Globals) (s : promClient)
    (hm : HostMetrics) (metric method rollup : string) :
  url_Parse_ok (promURLStr G metric method rollup) = false ->
  updateAllHostMetrics url_Parse_ok G s hm metric method rollup
  = Panic NilDereference.
Proof.
  intros H. unfold updateAllHostMetrics, query, http_NewRequest.
  by rewrite H.
Qed.

Lemma updateAllHostMetrics_bad_URL_panics_witness :
  updateAllHostMetrics (fun url => negb (String.eqb url avg_cpu_url))
    default_globals (constant_client (Some one_node))
    ∅ prom_cpu_metric prom_avg_method "5m"
  = Panic NilDereference.
Proof.
  apply (updateAllHostMetrics_bad_URL_panics
           (fun url => negb (String.eqb url avg_cpu_url))).
  reflexivity.
Defined.

(* ===================================================================== *)
(** ** The orchestrator: every client *)
(* ===================================================================== *)

Section EveryClient.
Variable url_Parse_ok : string -> bool.
Variable G : Globals.
Variable s : promClient.

Lemma run_combinations_cons (rollup : string) (c : string * string)
    (cs : list (string * string)) (hm : HostMetrics) :
  run_combinations url_Parse_ok G s rollup (c :: cs) hm
  = (hm' ← updateAllHostMetrics url_Parse_ok G s hm c.2 c.1 rollup;
     run_combinations url_Parse_ok G s rollup cs hm').
Proof. reflexivity. Qed.

Lemma run_combinations_all_not_OK (rollup : string)
    (cs : list (string * string)) (hm : HostMetrics) :
  (forall c, c ∈ cs ->
     exists resp, query url_Parse_ok G s c.2 c.1 rollup = Ok resp /\
                  http.StatusCode resp <> http.StatusOK) ->
  run_combinations url_Parse_ok G s rollup cs hm = Ok hm.
Proof.
  induction cs as [|c cs IH]; intros H; [reflexivity|].
  rewrite run_combinations_cons.
  destruct (H c) as (resp & Hq & Hst); [apply list_elem_of_here|].
  rewrite (updateAllHostMetrics_not_OK _ _ _ _ _ _ _ _ Hq Hst), result_bind_Ok.
  apply IH. intros c' Hc'. apply H. by apply list_elem_of_further.
Qed.

Lemma updateAllHostMetrics_well_answered (rollup : string) (c : string * string)
    (hvs : list (string * string)) (hm : HostMetrics) :
  well_answered url_Parse_ok G s rollup c hvs ->
  updateAllHostMetrics url_Parse_ok G s hm c.2 c.1 rollup
  = Ok (append_all c.2 c.1 rollup hm hvs).
Proof.
  intros (resp & Hq & Hst & [(es & Hres & Hraw) | (e & hv & Hres & Hraw & ->)]);
    rewrite (updateAllHostMetrics_OK _ _ _ _ _ _ _ _ _ Hq Hst Hres).
  - by apply range_add_result_raw.
  - by apply add_result_raw_result_object.
Qed.

Lemma run_combinations_well_answered (rollup : string)
    (cs : list (string * string)) (answers : list (list (string * string)))
    (hm : HostMetrics) :
  Forall2 (well_answered url_Parse_ok G s rollup) cs answers ->
  run_combinations url_Parse_ok G s rollup cs hm
  = Ok (append_answers rollup hm (zip cs answers)).
Proof.
  intros H. revert hm. induction H as [|c hvs cs answers Hc _ IH]; intros hm;
    [reflexivity|].
  rewrite run_combinations_cons, (updateAllHostMetrics_well_answered _ _ _ _ Hc).
  rewrite result_bind_Ok. apply IH.
Qed.

End EveryClient.

Lemma total_metrics_append_answers (rollup : string)
    (answers : list ((string * string) * list (string * string)))
    (hm : HostMetrics) :
  total_metrics (append_answers rollup hm answers)
  = (total_metrics hm + sum_list (length <$> answers.*2))%nat.
Proof.
  revert hm. induction answers as [|[c hvs] answers IH]; intros hm; simpl.
  - lia.
  - unfold append_answers in *. simpl. rewrite IH, total_metrics_append_all.
    symmetry. apply Nat.add_assoc.
Qed.

(** X11: a panic while querying any one of the four combinations (the
    URL does not parse, or the transport fails) makes the whole fetch
    panic, whatever the other three requests return. *)
Theorem FetchAllHostsMetrics_query_panic_aborts
    (url_Parse_ok : string -> bool) (G : Globals) (s : promClient)
    (w : watcher.Window) (method metric : string) :
  (method, metric) ∈ combinations ->
  panics (query url_Parse_ok G s metric method (watcher.Duration w)) ->
  panics (FetchAllHostsMetrics url_Parse_ok G s (Some w)).
Proof.
  intros Hin [q Hq]. rewrite FetchAllHostsMetrics_combinations.
  assert (Hrun : panics (run_combinations url_Parse_ok G s (watcher.Duration w)
                           combinations ∅)).
  { unfold run_combinations.
    apply range_fold_panics with (x := (method, metric)); [done|].
    intros hm. unfold updateAllHostMetrics. cbn [fst snd]. rewrite Hq.
    by exists q. }
  destruct Hrun as [q' ->]. by exists q'.
Qed.

Lemma FetchAllHostsMetrics_query_panic_aborts_witness :
  panics (FetchAllHostsMetrics any_url default_globals last_request_fails window_5m).
Proof.
  apply (FetchAllHostsMetrics_query_panic_aborts any_url default_globals
           last_request_fails (watcher.mkWindow "5m") prom_std_method prom_mem_metric).
  - do 3 apply list_elem_of_further. apply list_elem_of_here.
  - exists NilDereference. reflexivity.
Defined.

(** A nil window makes the fetch panic when the first iteration
    reads [window.Duration], for every client and configuration. *)
Theorem FetchAllHostsMetrics_nil_window_panics
    (url_Parse_ok : string -> bool) (G : Globals) (s : promClient) :
  FetchAllHostsMetrics url_Parse_ok G s None = Panic NilDereference.
Proof. reflexivity. Qed.

(** X12: when all four requests are answered with a status other than
    200, the fetch returns the empty mapping and a nil error. *)
Theorem FetchAllHostsMetrics_all_not_OK
    (url_Parse_ok : string -> bool) (G : Globals) (s : promClient)
    (w : watcher.Window) :
  (forall method metric, (method, metric) ∈ combinations ->
     exists resp,
       query url_Parse_ok G s metric method (watcher.Duration w) = Ok resp /\
       http.StatusCode resp <> http.StatusOK) ->
  FetchAllHostsMetrics url_Parse_ok G s (Some w) = Ok (∅, None).
Proof.
  intros H. rewrite FetchAllHostsMetrics_combinations.
  rewrite run_combinations_all_not_OK; [reflexivity|].
  intros [method metric] Hc. by apply H.
Qed.

Lemma FetchAllHostsMetrics_all_not_OK_witness :
  FetchAllHostsMetrics any_url default_globals
    (constant_client (Some unavailable)) window_5m = Ok (∅, None).
Proof.
  apply (FetchAllHostsMetrics_all_not_OK any_url default_globals
           (constant_client (Some unavailable)) (watcher.mkWindow "5m")).
  intros method metric _. exists unavailable. split; [|discriminate].
  unfold query, http_NewRequest, any_url. reflexivity.
Defined.

(** X13: in the mapping a fetch returns, every host's sequence is made of
    four consecutive runs, in the order of the queries: the metrics of
    avg/cpu, then avg/memory, then stddev/cpu, then stddev/memory, all
    with the window's duration as rollup. *)
Theorem FetchAllHostsMetrics_query_order
    (url_Parse_ok : string -> bool) (G : Globals) (s : promClient)
    (w : watcher.Window) (hm : HostMetrics) (err : option string) (h : string) :
  FetchAllHostsMetrics url_Parse_ok G s (Some w) = Ok (hm, err) ->
  exists a b c d,
    metrics_of hm h = (a ++ b ++ c ++ d)%list /\
    Forall (fun m => m.(watcher.Name) = prom_avg_method /\
                     m.(watcher.Type_) = watcher.CPU /\
                     m.(watcher.Rollup) = watcher.Duration w) a /\
    Forall (fun m => m.(watcher.Name) = prom_avg_method /\
                     m.(watcher.Type_) = watcher.Memory /\
                     m.(watcher.Rollup) = watcher.Duration w) b /\
    Forall (fun m => m.(watcher.Name) = prom_std_method /\
                     m.(watcher.Type_) = watcher.CPU /\
                     m.(watcher.Rollup) = watcher.Duration w) c /\
    Forall (fun m => m.(watcher.Name) = prom_std_method /\
                     m.(watcher.Type_) = watcher.Memory /\
                     m.(watcher.Rollup) = watcher.Duration w) d.
Proof.
  rewrite FetchAllHostsMetrics_combinations. unfold combinations.
  rewrite run_combinations_cons. cbn [fst snd].
  destruct (updateAllHostMetrics url_Parse_ok G s ∅ _ _ _) as [hm1|] eqn:E1;
    [|discriminate].
  rewrite result_bind_Ok, run_combinations_cons. cbn [fst snd].
  destruct (updateAllHostMetrics url_Parse_ok G s hm1 _ _ _) as [hm2|] eqn:E2;
    [|discriminate].
  rewrite result_bind_Ok, run_combinations_cons. cbn [fst snd].
  destruct (updateAllHostMetrics url_Parse_ok G s hm2 _ _ _) as [hm3|] eqn:E3;
    [|discriminate].
  rewrite result_bind_Ok, run_combinations_cons. cbn [fst snd].
  destruct (updateAllHostMetrics url_Parse_ok G s hm3 _ _ _) as [hm4|] eqn:E4;
    [|discriminate].
  rewrite result_bind_Ok. intros [= <- _].
  apply updateAllHostMetrics_extends in E1 as [_ H1], E2 as [_ H2],
        E3 as [_ H3], E4 as [_ H4].
  destruct (H1 h) as (a & Ea & Fa), (H2 h) as (b & Eb & Fb),
           (H3 h) as (c & Ec & Fc), (H4 h) as (d & Ed & Fd).
  exists a, b, c, d. split.
  - rewrite Ed, Ec, Eb, Ea. unfold metrics_of at 1. rewrite lookup_empty.
    simpl. by rewrite <- !app_assoc.
  - repeat split; eapply Forall_impl; eauto;
      intros m (Hn & Hr & Ht); repeat split; try done; rewrite Ht; reflexivity.
Qed.

Lemma FetchAllHostsMetrics_query_order_witness :
  exists a b c d,
    metrics_of
      (append_answers "5m" ∅
         (zip combinations (replicate 4 [("node-1", "0.73")]))) "node-1"
    = (a ++ b ++ c ++ d)%list /\
    Forall (fun m => m.(watcher.Name) = prom_avg_method /\
                     m.(watcher.Type_) = watcher.CPU /\
                     m.(watcher.Rollup) = "5m") a /\
    Forall (fun m => m.(watcher.Name) = prom_avg_method /\
                     m.(watcher.Type_) = watcher.Memory /\
                     m.(watcher.Rollup) = "5m") b /\
    Forall (fun m => m.(watcher.Name) = prom_std_method /\
                     m.(watcher.Type_) = watcher.CPU /\
                     m.(watcher.Rollup) = "5m") c /\
    Forall (fun m => m.(watcher.Name) = prom_std_method /\
                     m.(watcher.Type_) = watcher.Memory /\
                     m.(watcher.Rollup) = "5m") d.
Proof.
  apply (FetchAllHostsMetrics_query_order any_url default_globals
           (constant_client (Some one_node)) (watcher.mkWindow "5m") _ None).
  vm_compute. reflexivity.
Defined.



(* ===================================================================== *)
(** ** Configuration and the request *)
(* ===================================================================== *)

Lemma string_app_empty_r (s : string) : s ++ "" = s.
Proof.
  induction s as [|c s IH]; [reflexivity|].
  change (String c s ++ "") with (String c (s ++ "")). by rewrite IH.
Qed.

(** X15: the request a query sends, from the process environment: a GET
    to [http://<host>/api/v1/query?query=<method>(<metric>[<rollup>])]
    where the host is PROM_HOST when set (even empty) and
    prometheus-k8s:9090 otherwise, with the header Content-Type:
    application/json, and with Authorization: Bearer <token> exactly when
    PROM_TOKEN is set (even empty). *)
Theorem query_request_from_environment
    (url_Parse_ok : string -> bool) (LookupEnv : string -> option string)
    (s : promClient) (metric method rollup : string) :
  url_Parse_ok (promURLStr (init LookupEnv) metric method rollup) = true ->
  exists req,
    query url_Parse_ok (init LookupEnv) s metric method rollup
      = deref (http.Do (client s) req) /\
    http.Method req = "GET" /\
    http.URL req
      = "http://" ++ default "prometheus-k8s:9090" (LookupEnv "PROM_HOST")
        ++ "/api/v1/query?query=" ++ method ++ "(" ++ metric ++ "[" ++ rollup ++ "])" /\
    Header_Get "Content-Type" (http.Header req) = "application/json" /\
    match LookupEnv "PROM_TOKEN" with
    | Some token =>
        Header_Get "Authorization" (http.Header req) = "Bearer " ++ token /\
        (http.Header req).*1 = ["Authorization"; "Content-Type"]
    | None => (http.Header req).*1 = ["Content-Type"]
    end.
Proof.
  intros Hurl. unfold query, http_NewRequest. rewrite Hurl.
  cbn [deref]. rewrite result_bind_Ok.
  eexists. split; [reflexivity|].
  unfold init, promHostKey, promTokenKey. cbn [promTokenPresent promToken promHost].
  destruct (LookupEnv "PROM_TOKEN") as [token|], (LookupEnv "PROM_HOST") as [host|];
    repeat split; try reflexivity;
    cbn; by rewrite string_app_empty_r.
Qed.

Lemma query_request_from_environment_witness :
  exists req,
    query any_url
      (init (fun k => if String.eqb k "PROM_TOKEN" then Some "s3cr3t" else None))
      (constant_client None) prom_cpu_metric prom_avg_method "5m"
      = deref (http.Do (client (constant_client None)) req) /\
    http.Method req = "GET" /\
    http.URL req
      = "http://" ++ default "prometheus-k8s:9090" None
        ++ "/api/v1/query?query=" ++ prom_avg_method ++ "(" ++ prom_cpu_metric
        ++ "[" ++ "5m" ++ "])" /\
    Header_Get "Content-Type" (http.Header req) = "application/json" /\
    Header_Get "Authorization" (http.Header req) = "Bearer " ++ "s3cr3t" /\
    (http.Header req).*1 = ["Authorization"; "Content-Type"].
Proof.
  apply (query_request_from_environment any_url
           (fun k => if String.eqb k "PROM_TOKEN" then Some "s3cr3t" else None)
           (constant_client None) prom_cpu_metric prom_avg_method "5m").
  reflexivity.
Defined.

(* ===================================================================== *)
(** ** A non-OK status among the four combinations *)
(* ===================================================================== *)

Lemma metrics_of_append_answers (rollup : string)
    (answers : list ((string * string) * list (string * string)))
    (hm : HostMetrics) (h : string) :
  metrics_of (append_answers rollup hm answers) h
  = (metrics_of hm h ++ concat (contribution rollup h <$> answers))%list.
Proof.
  revert hm. induction answers as [|ca answers IH]; intros hm.
  - simpl. by rewrite app_nil_r.
  - unfold append_answers in *. cbn [foldl]. rewrite IH, metrics_of_append_all.
    rewrite fmap_cons. cbn [concat]. by rewrite <- app_assoc.
Qed.

(** C3: a non-OK status returns the mapping unchanged.  Within a fetch the
    combination that met it drops out, and the other three contribute
    their metrics to the final mapping: when they are answered with
    well-formed results, the mapping returned holds, for every host, the
    metrics of those three answers in query order, and as many metrics in
    all as the three answers hold entries. *)
Theorem non_OK_status_is_skipped
    (url_Parse_ok : string -> bool) (G : Globals) (s : promClient) :
  (forall (hostMetrics : HostMetrics) (metric method rollup : string)
          (resp : http.Response),
      query url_Parse_ok G s metric method rollup = Ok resp ->
      http.StatusCode resp <> http.StatusOK ->
      updateAllHostMetrics url_Parse_ok G s hostMetrics metric method rollup
      = Ok hostMetrics) /\
  (forall (w : watcher.Window) (pre post : list (string * string))
          (method metric : string) (resp : http.Response),
      combinations = (pre ++ (method, metric) :: post)%list ->
      query url_Parse_ok G s metric method (watcher.Duration w) = Ok resp ->
      http.StatusCode resp <> http.StatusOK ->
      FetchAllHostsMetrics url_Parse_ok G s (Some w)
      = (hm ← run_combinations url_Parse_ok G s (watcher.Duration w)
               (pre ++ post)%list ∅;
         Ok (hm, None))) /\
  (forall (w : watcher.Window) (pre post : list (string * string))
          (method metric : string) (resp : http.Response)
          (answers : list (list (string * string))),
      combinations = (pre ++ (method, metric) :: post)%list ->
      query url_Parse_ok G s metric method (watcher.Duration w) = Ok resp ->
      http.StatusCode resp <> http.StatusOK ->
      Forall2 (well_answered url_Parse_ok G s (watcher.Duration w))
              (pre ++ post)%list answers ->
      exists hm,
        FetchAllHostsMetrics url_Parse_ok G s (Some w) = Ok (hm, None) /\
        total_metrics hm = sum_list (length <$> answers) /\
        forall h,
          metrics_of hm h
          = concat ((fun ca =>
                       metric_for ca.1.2 ca.1.1 (watcher.Duration w)
                         <$> (filter (fun hv => hv.1 = h) ca.2).*2)
                    <$> zip (pre ++ post)%list answers)).
Proof.
  split; [|split].
  - intros hm metric method rollup resp. apply updateAllHostMetrics_not_OK.
  - intros w pre post method metric resp Hc Hq Hst.
    rewrite FetchAllHostsMetrics_combinations, Hc.
    by rewrite (run_combinations_skip _ _ _ _ _ _ (method, metric) resp).
  - intros w pre post method metric resp answers Hc Hq Hst Hans.
    exists (append_answers (watcher.Duration w) ∅ (zip (pre ++ post)%list answers)).
    split; [|split].
    + rewrite FetchAllHostsMetrics_combinations, Hc.
      rewrite (run_combinations_skip _ _ _ _ _ _ (method, metric) resp) by done.
      by rewrite (run_combinations_well_answered _ _ _ _ _ _ _ Hans).
    + rewrite total_metrics_append_answers.
      rewrite snd_zip by (by rewrite (Forall2_length _ _ _ Hans)).
      unfold total_metrics. by rewrite map_fold_empty.
    + intros h. rewrite metrics_of_append_answers.
      unfold metrics_of at 1. by rewrite lookup_empty.
Qed.

Lemma non_OK_status_is_skipped_witness :
  updateAllHostMetrics any_url default_globals std_cpu_unavailable
    (append_metric ∅ "node-9" (metric_for prom_cpu_metric prom_avg_method "5m" "1"))
    prom_cpu_metric prom_std_method "5m"
  = Ok (append_metric ∅ "node-9" (metric_for prom_cpu_metric prom_avg_method "5m" "1")) /\
  FetchAllHostsMetrics any_url default_globals std_cpu_unavailable
    (Some (watcher.mkWindow "5m"))
  = (hm ← run_combinations any_url default_globals std_cpu_unavailable
           (watcher.Duration (watcher.mkWindow "5m"))
           ([(prom_avg_method, prom_cpu_metric); (prom_avg_method, prom_mem_metric)]
            ++ [(prom_std_method, prom_mem_metric)])%list ∅;
     Ok (hm, None)) /\
  exists hm,
    FetchAllHostsMetrics any_url default_globals std_cpu_unavailable
      (Some (watcher.mkWindow "5m")) = Ok (hm, None) /\
    total_metrics hm
    = sum_list (length <$> [[("node-1", "0.73")]; [("node-1", "0.73")];
                            [("node-1", "0.5"); ("node-2", "0.7")]]) /\
    forall h,
      metrics_of hm h
      = concat ((fun ca =>
                   metric_for ca.1.2 ca.1.1 (watcher.Duration (watcher.mkWindow "5m"))
                     <$> (filter (fun hv => hv.1 = h) ca.2).*2)
                <$> zip ([(prom_avg_method, prom_cpu_metric);
                          (prom_avg_method, prom_mem_metric)]
                         ++ [(prom_std_method, prom_mem_metric)])%list
                        [[("node-1", "0.73")]; [("node-1", "0.73")];
                         [("node-1", "0.5"); ("node-2", "0.7")]]).
Proof.
  split; [|split].
  - apply (proj1 (non_OK_status_is_skipped any_url default_globals std_cpu_unavailable)
             _ prom_cpu_metric prom_std_method "5m" unavailable).
    + vm_compute. reflexivity.
    + discriminate.
  - apply (proj1 (proj2 (non_OK_status_is_skipped any_url default_globals
                           std_cpu_unavailable))
             (watcher.mkWindow "5m")
             [(prom_avg_method, prom_cpu_metric); (prom_avg_method, prom_mem_metric)]
             [(prom_std_method, prom_mem_metric)]
             prom_std_method prom_cpu_metric unavailable).
    + reflexivity.
    + vm_compute. reflexivity.
    + discriminate.
  - apply (proj2 (proj2 (non_OK_status_is_skipped any_url default_globals
                           std_cpu_unavailable))
             (watcher.mkWindow "5m")
             [(prom_avg_method, prom_cpu_metric); (prom_avg_method, prom_mem_metric)]
             [(prom_std_method, prom_mem_metric)]
             prom_std_method prom_cpu_metric unavailable).
    + reflexivity.
    + vm_compute. reflexivity.
    + discriminate.
    + apply List.Forall2_cons; [|apply List.Forall2_cons;
        [|apply List.Forall2_cons; [|apply List.Forall2_nil]]].
      1-2: exists one_node; split; [vm_compute; reflexivity|];
           split; [reflexivity|];
           right; exists (raw_entry "node-1" "0.73"), ("node-1", "0.73");
           split; [vm_compute; reflexivity|];
           split; [apply raw_entry_raw_result_object|reflexivity].
      exists two_nodes. split; [vm_compute; reflexivity|]. split; [reflexivity|].
      left. exists [raw_entry "node-1" "0.5"; raw_entry "node-2" "0.7"].
      split; [vm_compute; reflexivity|].
      apply List.Forall2_cons; [apply raw_entry_raw_result_object|].
      apply List.Forall2_cons; [apply raw_entry_raw_result_object|apply List.Forall2_nil].
Defined.

(** In such a fetch the other three combinations did contribute: with
    avg/cpu answered 503, node-1 ends with the three other metrics. *)
Example avg_cpu_unavailable_three_metrics :
  exists hm,
    FetchAllHostsMetrics any_url default_globals avg_cpu_unavailable window_5m
      = Ok (hm, None) /\
    metrics_of hm "node-1"
    = [metric_for prom_mem_metric prom_avg_method "5m" "0.73";
       metric_for prom_cpu_metric prom_std_method "5m" "0.73";
       metric_for prom_mem_metric prom_std_method "5m" "0.73"].
Proof. eexists. split; vm_compute; reflexivity. Qed.
